(** * Order engine of the restaurant backend: pricing, status machine,
      stock and table side effects

    A shallow embedding of

      - [src/models/Table.js]   (the Table model; the same file carries the
                                 Dish model: [checkStockStatus], [updateStock]),
      - [src/models/Order.js]   (the order-number hook, [updateStatus],
                                 [calculateTotals]),
      - [src/routes/orders.js]  (POST /api/orders, PUT /:id/status,
                                 PUT /:id/cancel, POST /:id/review, the
                                 inventory report),
      - the dishes router       (PUT /api/dishes/:id/stock and
                                 /:id/availability),
      - [src/routes/tables.js]  (DELETE /api/tables/:id, PUT /:id/status),
      - [src/middleware/auth.js] ([authorize], [canAccessRestaurant]),

    followed by the properties of the order engine.

    Modelling choices.
      - A JavaScript [Number] that carries money is an IEEE-754 binary64
        value: Rocq's primitive [float], with the same rounding.
      - Quantities, stock levels and thresholds are Numbers that hold
        integers (the routers check them with [isInt]); they are modelled as
        [Z], and converted to [float] where the code multiplies a price by a
        quantity. On integers a Number computes exactly up to 2^53
        ([isSafeInteger]); beyond, its sums are rounded and the model is not
        meant. Every statement about the value of a sum says within which
        bounds it holds.
      - [isInt] accepts a JSON string of digits as well as a JSON number.
        The stock route hands its [quantity] to the dish as it came, so the
        model keeps the two apart ([Quantity]): under [+] a string is joined
        to the text of the stock.
      - A MongoDB collection addressed by [findById]/[save] is a [gmap] from
        the identifier to the document; the orders collection, which is also
        counted and appended to, is the list of its documents in insertion
        order.
      - A handler is a function from the database to a response and the
        database it leaves behind; an early [return res.status(..)] and an
        uncaught exception both stop the handler where they occur, keeping
        the writes done so far (the code opens no transaction).
      - A document found by [findById(id)] has [_id] equal to [id]; dishes
        and tables are stored under that key and carry no [_id] field. An
        identifier is the text of an ObjectId, 24 hexadecimal digits; a
        lookup with any other text, which Mongoose refuses with a cast error,
        is outside the model.
      - Mongoose validates a document against its schema when it is saved,
        before the [pre('save')] hooks run. The model has the validators that
        a handler can run into: [required] on [orderNumber] when an order is
        created, and [min: 0] on [stockQuantity] when the stock route saves a
        dish. The documents already in a collection are taken to satisfy
        their schema. The unique indexes on [_id] and [orderNumber] are
        modelled as well.
      - The validator chain of POST /api/orders is modelled on the fields the
        handler reads: identifiers are checked with [isMongoId]. The price of
        a customization is a JSON number or missing.
      - One request is handled at a time, and [new Date()] yields the same
        instant throughout one request. *)

From Stdlib Require Import Floats ZArith Lia.
From Stdlib Require Import Ascii String DecimalString DecimalNat.
From stdpp Require Import gmap list strings.

Set Warnings "-inexact-float".

(** ** Basic types *)

(** A JavaScript Number holding an amount of money or a rate. *)
Abbreviation Number := float.

(** A MongoDB ObjectId, in its string form. *)
Abbreviation ObjectId := string.

(** The integer [z] as a Number: the nearest binary64 value. *)
Definition Number_of_Z (z : Z) : Number :=
  SF2Prim (binary_normalize prec emax z 0 false).

(** [x || 0] on a possibly missing Number: [undefined], [0], [-0] and [NaN]
    are falsy. *)
Definition orZero (x : option Number) : Number :=
  match x with
  | None => 0%float
  | Some v => if PrimFloat.is_zero v || PrimFloat.is_nan v then 0%float else v
  end.

(** [Number.MAX_SAFE_INTEGER]. Every integer up to it in magnitude is a
    Number, and the sum of two such integers, if it is one of them too, is
    computed without rounding. *)
Definition MAX_SAFE_INTEGER : Z := 2 ^ 53 - 1.

Definition isSafeInteger (z : Z) : Prop :=
  (- MAX_SAFE_INTEGER <= z <= MAX_SAFE_INTEGER)%Z.

(** [String(n)] for a Number [n] that holds an integer. *)
Definition Number_toText (n : Z) : string :=
  NilZero.string_of_int (Z.to_int n).

(** The integer that a text of decimal digits denotes. *)
Definition digitsValue (s : string) : option Z :=
  Z.of_uint <$> NilZero.uint_of_string s.

(** [Number(s)] for a text of signs and digits: the integer it denotes when
    it is empty or a row of digits behind at most one sign, and [NaN], here
    [None], otherwise. *)
Definition Number_ofText (s : string) : option Z :=
  match s with
  | EmptyString => Some 0%Z
  | String c s' =>
      if Ascii.eqb c "+" then digitsValue s'
      else if Ascii.eqb c "-" then Z.opp <$> digitsValue s'
      else digitsValue s
  end.

(** A body field on which the router calls [isInt()]: a JSON number that
    holds an integer, or a JSON string. *)
Inductive Quantity :=
  | QNumber (n : Z)
  | QString (s : string).

Coercion QNumber : Z >-> Quantity.
Bind Scope Z_scope with Quantity.

(** [isInt()]: the value is turned into text and matched against
    [^[-+]?[0-9]+$]. An integer Number is written as a row of digits behind
    its sign (up to 1e21, beyond which the model is not meant), so it
    passes. *)
Definition isIntText (s : string) : bool :=
  match s with
  | EmptyString => false
  | _ => bool_decide (is_Some (Number_ofText s))
  end.

Definition isInt (q : Quantity) : bool :=
  match q with
  | QNumber _ => true
  | QString s => isIntText s
  end.

(** The Number that unary minus, and Mongoose when it casts a value for a
    Number field, make of the field; [None] is [NaN]. *)
Definition toNumber (q : Quantity) : option Z :=
  match q with
  | QNumber n => Some n
  | QString s => Number_ofText s
  end.

(** The text of an ObjectId: 24 hexadecimal digits. *)
Definition isHexDigit (c : ascii) : bool :=
  let n := nat_of_ascii c in
  (48 <=? n) && (n <=? 57) || (65 <=? n) && (n <=? 70) || (97 <=? n) && (n <=? 102).

Definition isHexDigits (s : string) : bool :=
  (1 <=? String.length s) && forallb isHexDigit (list_ascii_of_string s).


(** [isMongoId()] of validator.js: 24 characters that [isHexadecimal]
    accepts, which are hexadecimal digits, in the newer versions of the
    library also behind the prefix [0x] or [0h]. The model takes the newer
    reading, which refuses less; the two agree on every text of an
    ObjectId. *)
Definition isHexadecimal (s : string) : bool :=
  isHexDigits s
  || match s with
     | String "0" (String c digits) =>
         (Ascii.eqb c "x" || Ascii.eqb c "X" || Ascii.eqb c "h" || Ascii.eqb c "H")
         && isHexDigits digits
     | _ => false
     end.

Definition isMongoId (s : string) : bool :=
  isHexadecimal s && (String.length s =? 24).

(** A JavaScript [Date], read through the accessors the code uses. *)
Record Date := mkDate {
  getFullYear : nat;
  getMonth : nat;          (* 0 .. 11 *)
  getDate : nat;           (* 1 .. 31 *)
  msOfDay : N              (* milliseconds since local midnight *)
}.

Inductive OrderType := dine_in | takeout | delivery.
Inductive OrderStatus :=
  | pending | confirmed | preparing | ready | out_for_delivery
  | delivered | completed | cancelled | rejected.
Inductive PaymentMethod := cash | card | online | wallet.
Inductive TableStatus :=
  | available | occupied | reserved | maintenance | out_of_service.

#[global] Instance OrderType_eq_dec : EqDecision OrderType.
Proof. solve_decision. Defined.
#[global] Instance OrderStatus_eq_dec : EqDecision OrderStatus.
Proof. solve_decision. Defined.
#[global] Instance TableStatus_eq_dec : EqDecision TableStatus.
Proof. solve_decision. Defined.

(** ** models/Table.js : Table *)

Module Table.

Record t := mk {
  tableNumber : string;
  restaurantId : ObjectId;
  status : TableStatus;
  currentOrder : option ObjectId;
  isActive : bool
}.

Definition isAvailable (this : t) : bool :=
  bool_decide (status this = available) && isActive this.

(** [reserve]: the returned boolean and the table after the call. *)
Definition reserve (this : t) : bool * t :=
  if isAvailable this
  then (true, mk (tableNumber this) (restaurantId this) reserved
                 (currentOrder this) (isActive this))
  else (false, this).

(** [occupy(orderId)]. *)
Definition occupy (orderId : ObjectId) (this : t) : bool * t :=
  if bool_decide (status this = available) || bool_decide (status this = reserved)
  then (true, mk (tableNumber this) (restaurantId this) occupied
                 (Some orderId) (isActive this))
  else (false, this).

(** [free()]. *)
Definition free (this : t) : t :=
  mk (tableNumber this) (restaurantId this) available None (isActive this).

End Table.

(** ** models/Table.js (second document) : Dish *)

Module Dish.

(** [stockQuantity] and [lowStockThreshold] are Numbers that hold integers.
    [Z] stands for them within [isSafeInteger], where the sums that
    [updateStock] forms are exact. *)
Record t := mk {
  name : string;
  restaurantId : ObjectId;
  price : Number;
  isAvailable : bool;
  stockQuantity : Z;
  lowStockThreshold : Z;
  isLowStock : bool;
  isOutOfStock : bool
}.

(** Assignment [this.stockQuantity = q]. *)
Definition set_stockQuantity (q : Z) (this : t) : t :=
  mk (name this) (restaurantId this) (price this) (isAvailable this)
     q (lowStockThreshold this) (isLowStock this) (isOutOfStock this).

Definition checkStockStatus (this : t) : t :=
  mk (name this) (restaurantId this) (price this) (isAvailable this)
     (stockQuantity this) (lowStockThreshold this)
     (stockQuantity this <=? lowStockThreshold this)%Z
     (stockQuantity this =? 0)%Z.

(** [updateStock(quantity)], called with a Number. *)
Definition updateStock (quantity : Z) (this : t) : t :=
  checkStockStatus
    (set_stockQuantity (Z.max 0 (stockQuantity this + quantity)) this).

(** [updateStock(quantity)], called with a string: [+] joins the string to
    the text of the stock, and [Math.max] reads the joined text as a Number.
    When that is [NaN] the field cannot take it: [None]. *)
Definition updateStockText (quantity : string) (this : t) : option t :=
  joined ← Number_ofText (Number_toText (stockQuantity this) +:+ quantity);
  Some (checkStockStatus (set_stockQuantity (Z.max 0 joined) this)).

End Dish.

(** ** models/Restaurant.js : the settings the order engine reads *)

Module Restaurant.

Record Settings := mkSettings {
  taxRate : Number;
  serviceCharge : Number;
  deliveryFee : Number
}.

Record t := mk { name : string; settings : Settings }.

End Restaurant.

(** ** models/Order.js : Order *)

Module Order.

(** One selected customization of a line. *)
Record Customization := mkCustomization {
  cname : string;
  coption : string;
  cprice : option Number       (* [price] may be missing in a request *)
}.

(** An element of [items]. *)
Record Item := mkItem {
  dishId : ObjectId;
  name : string;
  price : Number;
  quantity : Z;
  customizations : list Customization;
  totalPrice : Number
}.

(** An element of [statusHistory]. *)
Record StatusEntry := mkEntry {
  entryStatus : OrderStatus;
  updatedBy : ObjectId;
  notes : string;
  timestamp : Date
}.

Record t := mk {
  _id : ObjectId;
  orderNumber : string;
  restaurantId : ObjectId;
  customerId : ObjectId;
  tableId : option ObjectId;
  orderType : OrderType;
  items : list Item;
  subtotal : Number;
  taxAmount : Number;
  serviceCharge : Number;
  deliveryFee : Number;
  discountAmount : Number;
  totalAmount : Number;
  status : OrderStatus;
  statusHistory : list StatusEntry;
  paymentMethod : PaymentMethod;
  actualDeliveryTime : option Date;
  cancellationReason : option string;
  cancelledBy : option ObjectId;
  cancelledAt : option Date;
  createdAt : Date
}.

(** [updateStatus(newStatus, updatedBy, notes = '')]: a missing [notes]
    takes the default value of the parameter. *)
Definition updateStatus (newStatus : OrderStatus) (by_ : ObjectId)
    (notes_ : option string) (now : Date) (this : t) : t :=
  mk (_id this) (orderNumber this) (restaurantId this) (customerId this)
     (tableId this) (orderType this) (items this)
     (subtotal this) (taxAmount this) (serviceCharge this)
     (deliveryFee this) (discountAmount this) (totalAmount this)
     newStatus
     (statusHistory this ++ [mkEntry newStatus by_ (default EmptyString notes_) now])
     (paymentMethod this) (actualDeliveryTime this)
     (cancellationReason this) (cancelledBy this) (cancelledAt this)
     (createdAt this).

(** [calculateTotals()]. *)
Definition calculateTotals (this : t) : t :=
  let subtotal' :=
    fold_left (fun sum item => (sum + totalPrice item)%float) (items this) 0%float in
  mk (_id this) (orderNumber this) (restaurantId this) (customerId this)
     (tableId this) (orderType this) (items this)
     subtotal' (taxAmount this) (serviceCharge this)
     (deliveryFee this) (discountAmount this)
     (subtotal' + taxAmount this + serviceCharge this + deliveryFee this
        - discountAmount this)%float
     (status this) (statusHistory this)
     (paymentMethod this) (actualDeliveryTime this)
     (cancellationReason this) (cancelledBy this) (cancelledAt this)
     (createdAt this).

(** Assignments made by the routers. *)
Definition set_orderNumber (n : string) (this : t) : t :=
  mk (_id this) n (restaurantId this) (customerId this)
     (tableId this) (orderType this) (items this)
     (subtotal this) (taxAmount this) (serviceCharge this)
     (deliveryFee this) (discountAmount this) (totalAmount this)
     (status this) (statusHistory this)
     (paymentMethod this) (actualDeliveryTime this)
     (cancellationReason this) (cancelledBy this) (cancelledAt this)
     (createdAt this).

Definition set_actualDeliveryTime (d : Date) (this : t) : t :=
  mk (_id this) (orderNumber this) (restaurantId this) (customerId this)
     (tableId this) (orderType this) (items this)
     (subtotal this) (taxAmount this) (serviceCharge this)
     (deliveryFee this) (discountAmount this) (totalAmount this)
     (status this) (statusHistory this)
     (paymentMethod this) (Some d)
     (cancellationReason this) (cancelledBy this) (cancelledAt this)
     (createdAt this).

Definition set_cancellationReason (r : option string) (this : t) : t :=
  mk (_id this) (orderNumber this) (restaurantId this) (customerId this)
     (tableId this) (orderType this) (items this)
     (subtotal this) (taxAmount this) (serviceCharge this)
     (deliveryFee this) (discountAmount this) (totalAmount this)
     (status this) (statusHistory this)
     (paymentMethod this) (actualDeliveryTime this)
     r (cancelledBy this) (cancelledAt this)
     (createdAt this).

(** [cancelledBy = user; cancelledAt = new Date()]. *)
Definition set_cancelled (user : ObjectId) (d : Date) (this : t) : t :=
  mk (_id this) (orderNumber this) (restaurantId this) (customerId this)
     (tableId this) (orderType this) (items this)
     (subtotal this) (taxAmount this) (serviceCharge this)
     (deliveryFee this) (discountAmount this) (totalAmount this)
     (status this) (statusHistory this)
     (paymentMethod this) (actualDeliveryTime this)
     (cancellationReason this) (Some user) (Some d)
     (createdAt this).

End Order.

(** ** Strings of the order number *)

(** [n.toString()] for a non-negative integer. *)
Definition toString (n : nat) : string :=
  NilEmpty.string_of_uint (Nat.to_uint n).

Fixpoint repeatChar (n : nat) (c : ascii) : string :=
  match n with
  | O => EmptyString
  | S n' => String c (repeatChar n' c)
  end.

(** [s.padStart(targetLength, c)]. *)
Definition padStart (targetLength : nat) (c : ascii) (s : string) : string :=
  repeatChar (targetLength - String.length s) c +:+ s.

(** [s.slice(-k)]: the last [k] characters. *)
Definition sliceLast (k : nat) (s : string) : string :=
  substring (String.length s - k) k s.

(** ** The database and the handler monad *)

Record Db := mkDb {
  orders : list Order.t;
  dishes : gmap string Dish.t;
  tables : gmap string Table.t;
  restaurants : gmap string Restaurant.t
}.

Definition set_orders (os : list Order.t) (db : Db) : Db :=
  mkDb os (dishes db) (tables db) (restaurants db).
Definition set_dishes (ds : gmap string Dish.t) (db : Db) : Db :=
  mkDb (orders db) ds (tables db) (restaurants db).
Definition set_tables (ts : gmap string Table.t) (db : Db) : Db :=
  mkDb (orders db) (dishes db) ts (restaurants db).

(** Errors thrown inside a handler; [asyncHandler] passes them on to the
    error middleware. *)
Inductive Exception :=
  | DuplicateKey       (* a unique index refuses the insertion *)
  | TypeError          (* a method is called on [null] *)
  | SchemaValidation.  (* Mongoose: the document fails its schema *)

(** The failure responses of the routers. *)
Inductive Failure :=
  | ValidationError                        (* 400, express-validator errors *)
  | InvalidReference (dishId : ObjectId)   (* 400, dish not found or of another restaurant *)
  | ItemUnavailable (dishName : string)    (* 400, dish is not available *)
  | ItemOutOfStock (dishName : string)     (* 400, dish is out of stock *)
  | RestaurantNotFound                     (* 404 *)
  | OrderNotFound                          (* 404 *)
  | DishNotFound                           (* 404 *)
  | InvalidStateTransition                 (* 400, order cannot be cancelled in current status *)
  | Uncaught (e : Exception).              (* left to the error middleware *)

Inductive Response (A : Type) :=
  | Success (a : A)
  | Failed (f : Failure).
Arguments Success {A} a.
Arguments Failed {A} f.

Definition Handler (A : Type) : Type := Db -> Response A * Db.

#[global] Instance Handler_ret : MRet Handler :=
  fun A a db => (Success a, db).
#[global] Instance Handler_bind : MBind Handler :=
  fun A B k m db =>
    match m db with
    | (Success a, db') => k a db'
    | (Failed f, db') => (Failed f, db')
    end.

(** [return res.status(..).json(..)]. *)
Definition respond {A} (f : Failure) : Handler A := fun db => (Failed f, db).
Definition throw {A} (e : Exception) : Handler A := respond (Uncaught e).

(** [for (const x of l) { acc = body(acc, x) }], stopping at the first
    failure. *)
Fixpoint foldM {A B} (body : B -> A -> Handler B) (acc : B) (l : list A) : Handler B :=
  match l with
  | [] => mret acc
  | x :: l' => acc' ← body acc x; foldM body acc' l'
  end.

Definition forM_ {A} (body : A -> Handler unit) (l : list A) : Handler unit :=
  foldM (fun _ x => body x) tt l.

(** *** Collections *)

Definition Dish_findById (id : ObjectId) : Handler (option Dish.t) :=
  fun db => (Success (dishes db !! id), db).
Definition Dish_save (id : ObjectId) (d : Dish.t) : Handler unit :=
  fun db => (Success tt, set_dishes (<[id := d]> (dishes db)) db).

Definition Table_findById (id : ObjectId) : Handler (option Table.t) :=
  fun db => (Success (tables db !! id), db).
Definition Table_save (id : ObjectId) (t : Table.t) : Handler unit :=
  fun db => (Success tt, set_tables (<[id := t]> (tables db)) db).

Definition Restaurant_findById (id : ObjectId) : Handler (option Restaurant.t) :=
  fun db => (Success (restaurants db !! id), db).

Definition hasId (id : ObjectId) (o : Order.t) : bool :=
  bool_decide (Order._id o = id).

Definition Order_findById (id : ObjectId) : Handler (option Order.t) :=
  fun db => (Success (List.find (hasId id) (orders db)), db).

Definition Order_countDocuments (query : Order.t -> bool) : Handler nat :=
  fun db => (Success (length (List.filter query (orders db))), db).

(** [createdAt: { $gte: todayStart, $lt: todayEnd }], the bounds being the
    local midnights around [date]. *)
Definition createdOnDayOf (date : Date) (o : Order.t) : bool :=
  bool_decide (getFullYear (Order.createdAt o) = getFullYear date)
  && bool_decide (getMonth (Order.createdAt o) = getMonth date)
  && bool_decide (getDate (Order.createdAt o) = getDate date).

Definition ordersOfDay (restaurantId : ObjectId) (date : Date) (o : Order.t) : bool :=
  bool_decide (Order.restaurantId o = restaurantId) && createdOnDayOf date o.

(** The text of an order number. *)
Definition formatOrderNumber (date : Date) (sequenceNumber : nat) : string :=
  let year := sliceLast 2 (toString (getFullYear date)) in
  let month := padStart 2 "0" (toString (getMonth date + 1)) in
  let day := padStart 2 "0" (toString (getDate date)) in
  let sequence := padStart 4 "0" (toString sequenceNumber) in
  "ORD" +:+ year +:+ month +:+ day +:+ sequence.

(** [OrderSchema.pre('save')]: the order-number hook. *)
Definition Order_preSave (isNew : bool) (date : Date) (this : Order.t) : Handler Order.t :=
  if isNew then
    orderCount ← Order_countDocuments (ordersOfDay (Order.restaurantId this) date);
    mret (Order.set_orderNumber (formatOrderNumber date (orderCount + 1)) this)
  else mret this.

(** The unique indexes of the collection: [_id] and [orderNumber]. *)
Definition violatesUnique (doc : Order.t) (os : list Order.t) : bool :=
  existsb (fun o => hasId (Order._id doc) o
                    || bool_decide (Order.orderNumber o = Order.orderNumber doc)) os.

(** Writing a new document, and writing back a stored one. *)
Definition Order_insert (doc : Order.t) : Handler Order.t :=
  fun db =>
    if violatesUnique doc (orders db) then throw DuplicateKey db
    else (Success doc, set_orders (orders db ++ [doc]) db).

Definition Order_replace (doc : Order.t) : Handler unit :=
  fun db =>
    (Success tt,
     set_orders (map (fun x => if hasId (Order._id doc) x then doc else x) (orders db)) db).

(** The validation that Mongoose runs when a new order is saved, before the
    [pre('save')] hooks: [orderNumber] is [required] (Order.js, line 6), and
    a missing text, here the empty one, is refused. The other validators of
    the schema can only add to the same error. *)
Definition Order_validate (doc : Order.t) : Handler unit :=
  if bool_decide (Order.orderNumber doc = EmptyString)
  then throw SchemaValidation
  else mret tt.

(** [Order.create(doc)]: validate, run the hook, then insert. *)
Definition Order_create (date : Date) (doc : Order.t) : Handler Order.t :=
  Order_validate doc;;
  doc' ← Order_preSave true date doc;
  Order_insert doc'.

(** [order.save()] on a document that is already stored. *)
Definition Order_save (date : Date) (o : Order.t) : Handler unit :=
  o' ← Order_preSave false date o;
  Order_replace o'.

(** ** routes/orders.js *)

(** What a handler reads besides the body: the authenticated user
    ([req.user.id]), the clock, and the identifier the driver gives to a
    document created during the request. *)
Record Req := mkReq {
  user : ObjectId;
  now : Date;
  newObjectId : ObjectId
}.

(** An element of [req.body.items]. *)
Record ItemRequest := mkItemRequest {
  req_dishId : ObjectId;
  req_quantity : Z;
  req_customizations : option (list Order.Customization)
}.

Record CreateOrderBody := mkCreateOrderBody {
  body_restaurantId : ObjectId;
  body_orderType : OrderType;
  body_items : list ItemRequest;
  body_paymentMethod : PaymentMethod;
  body_tableId : option ObjectId
}.

(** The express-validator chain of POST /api/orders, as far as it constrains
    the modelled fields: [restaurantId], every [dishId] and a given [tableId]
    pass [isMongoId], [items] has at least one element and every [quantity]
    is an integer not below 1. [req_quantity] is the integer that the field
    denotes, whether it came as a JSON number or as a string of digits: the
    handler uses it in a product, under unary minus and as the value of a
    Number field, which all read that integer. *)
Definition validCreateOrderBody (b : CreateOrderBody) : bool :=
  isMongoId (body_restaurantId b)
  && (1 <=? length (body_items b))
  && forallb (fun item => isMongoId (req_dishId item) && (1 <=? req_quantity item)%Z)
       (body_items b)
  && match body_tableId b with
     | Some tableId => isMongoId tableId
     | None => true
     end.

(** Lines 148-155: the total of one line. *)
Definition itemTotalOf (dishPrice : Number) (item : ItemRequest) : Number :=
  let itemTotal := (dishPrice * Number_of_Z (req_quantity item))%float in
  match req_customizations item with
  | Some cs =>
      fold_left (fun itemTotal customization =>
                   (itemTotal + orZero (Order.cprice customization))%float)
                cs itemTotal
  | None => itemTotal
  end.

(** Lines 124-168: one turn of the validation loop; the accumulator is
    [subtotal] and [validatedItems]. The recorded [dishId] is [dish._id],
    the identifier that was looked up. *)
Definition validateItem (restaurantId : ObjectId)
    (acc : Number * list Order.Item) (item : ItemRequest)
    : Handler (Number * list Order.Item) :=
  let '(subtotal, validatedItems) := acc in
  dish ← Dish_findById (req_dishId item);
  match dish with
  | None => respond (InvalidReference (req_dishId item))
  | Some dish =>
      if negb (bool_decide (Dish.restaurantId dish = restaurantId))
      then respond (InvalidReference (req_dishId item))
      else if negb (Dish.isAvailable dish)
      then respond (ItemUnavailable (Dish.name dish))
      else if Dish.isOutOfStock dish
      then respond (ItemOutOfStock (Dish.name dish))
      else
        let itemTotal := itemTotalOf (Dish.price dish) item in
        mret ((subtotal + itemTotal)%float,
              validatedItems ++
                [Order.mkItem (req_dishId item) (Dish.name dish) (Dish.price dish)
                   (req_quantity item)
                   (default [] (req_customizations item))
                   itemTotal])
  end.

(** Lines 203-210. *)
Definition occupyTable (orderType : OrderType) (tableId : option ObjectId)
    (orderId : ObjectId) : Handler unit :=
  match orderType, tableId with
  | dine_in, Some tableId =>
      table ← Table_findById tableId;
      match table with
      | Some table => Table_save tableId (snd (Table.occupy orderId table))
      | None => mret tt
      end
  | _, _ => mret tt
  end.

(** Lines 213-217: one turn of the stock loop. *)
Definition decrementStock (item : Order.Item) : Handler unit :=
  dish ← Dish_findById (Order.dishId item);
  match dish with
  | Some dish =>
      Dish_save (Order.dishId item) (Dish.updateStock (- Order.quantity item) dish)
  | None => throw TypeError
  end.

(** Lines 180-201: the amounts, and the document handed to [Order.create].
    The literal gives no [orderNumber]: the text is empty. *)
Definition newOrder (req : Req) (body : CreateOrderBody) (restaurant : Restaurant.t)
    (subtotal : Number) (validatedItems : list Order.Item) : Order.t :=
  let settings := Restaurant.settings restaurant in
  let taxAmount := (subtotal * Restaurant.taxRate settings / 100)%float in
  let serviceCharge := (subtotal * Restaurant.serviceCharge settings / 100)%float in
  let deliveryFee :=
    if bool_decide (body_orderType body = delivery)
    then Restaurant.deliveryFee settings else 0%float in
  let totalAmount := (subtotal + taxAmount + serviceCharge + deliveryFee)%float in
  Order.mk (newObjectId req) EmptyString (body_restaurantId body) (user req)
    (body_tableId body) (body_orderType body) validatedItems
    subtotal taxAmount serviceCharge deliveryFee
    0%float                       (* discountAmount: schema default *)
    totalAmount
    pending                       (* status: schema default *)
    []                            (* statusHistory *)
    (body_paymentMethod body)
    None None None None
    (now req).                    (* createdAt: Date.now *)

(** POST /api/orders. *)
Definition createOrder (req : Req) (body : CreateOrderBody) : Handler Order.t :=
  if negb (validCreateOrderBody body) then respond ValidationError else
  let restaurantId := body_restaurantId body in
  let orderType := body_orderType body in
  '(subtotal, validatedItems) ←
     foldM (validateItem restaurantId) (0%float, []) (body_items body);
  restaurant ← Restaurant_findById restaurantId;
  match restaurant with
  | None => respond RestaurantNotFound
  | Some restaurant =>
      order ← Order_create (now req)
                (newOrder req body restaurant subtotal validatedItems);
      occupyTable orderType (body_tableId body) (Order._id order);;
      forM_ decrementStock validatedItems;;
      mret order
  end.

(** PUT /api/orders/:id/status. *)
Definition setOrderStatus (req : Req) (id : ObjectId) (status : OrderStatus)
    (notes : option string) : Handler Order.t :=
  order ← Order_findById id;
  match order with
  | None => respond OrderNotFound
  | Some order =>
      let order := Order.updateStatus status (user req) notes (now req) order in
      let order :=
        if bool_decide (status = delivered) || bool_decide (status = completed)
        then Order.set_actualDeliveryTime (now req) order else order in
      let order :=
        if bool_decide (status = cancelled) || bool_decide (status = rejected)
        then Order.set_cancelled (user req) (now req) order else order in
      Order_save (now req) order;;
      mret order
  end.

(** Line 306: the statuses in which an order cannot be cancelled. *)
Definition cannotCancel (status : OrderStatus) : bool :=
  bool_decide (status ∈ [delivered; completed; cancelled; rejected]).

(** Lines 322-328: one turn of the restoring loop. *)
Definition restoreStock (item : Order.Item) : Handler unit :=
  dish ← Dish_findById (Order.dishId item);
  match dish with
  | Some dish =>
      Dish_save (Order.dishId item) (Dish.updateStock (Order.quantity item) dish)
  | None => mret tt
  end.

(** Lines 331-337. *)
Definition freeTable (order : Order.t) : Handler unit :=
  match Order.orderType order, Order.tableId order with
  | dine_in, Some tableId =>
      table ← Table_findById tableId;
      match table with
      | Some table => Table_save tableId (Table.free table)
      | None => mret tt
      end
  | _, _ => mret tt
  end.

(** PUT /api/orders/:id/cancel. *)
Definition cancelOrder (req : Req) (id : ObjectId) (reason : option string)
    : Handler Order.t :=
  order ← Order_findById id;
  match order with
  | None => respond OrderNotFound
  | Some order =>
      if cannotCancel (Order.status order) then respond InvalidStateTransition
      else
        let order := Order.updateStatus cancelled (user req) reason (now req) order in
        let order := Order.set_cancellationReason reason order in
        let order := Order.set_cancelled (user req) (now req) order in
        Order_save (now req) order;;
        forM_ restoreStock (Order.items order);;
        freeTable order;;
        mret order
  end.

(** ** The dishes router: PUT /api/dishes/:id/stock *)

Inductive StockOperation := add | subtract | set.

(** The arms of [switch (operation)]: the dish after the arm, or [None] when
    the arm gives the stock a [NaN]. [add] hands the body's [quantity] to
    [updateStock] as it came; [subtract] hands over [-quantity], a Number;
    [set] assigns the field, which casts the value to a Number. *)
Definition applyStockOperation (operation : StockOperation) (quantity : Quantity)
    (dish : Dish.t) : option Dish.t :=
  match operation with
  | add =>
      match quantity with
      | QNumber n => Some (Dish.updateStock n dish)
      | QString s => Dish.updateStockText s dish
      end
  | subtract =>
      n ← toNumber quantity;
      Some (Dish.updateStock (- n) dish)
  | set =>
      n ← toNumber quantity;
      Some (Dish.checkStockStatus (Dish.set_stockQuantity n dish))
  end.

(** PUT /api/dishes/:id/stock. Before [dish.save()] writes, Mongoose
    validates the document: a stock that could not be assigned, or one below
    the schema's [min: 0], fails the validation and nothing is written. *)
Definition updateDishStock (id : ObjectId) (quantity : Quantity)
    (operation : StockOperation) : Handler Dish.t :=
  if negb (isInt quantity) then respond ValidationError else
  dish ← Dish_findById id;
  match dish with
  | None => respond DishNotFound
  | Some dish =>
      match applyStockOperation operation quantity dish with
      | None => throw SchemaValidation
      | Some dish =>
          if (Dish.stockQuantity dish <? 0)%Z then throw SchemaValidation
          else (Dish_save id dish;; mret dish)
      end
  end.

(** ** Runs of the order engine *)

(** A request to one of the modelled routes. The other routes of the
    backend create no order and write none of the modelled fields of an
    order. *)
Inductive Request :=
  | PostOrder (req : Req) (body : CreateOrderBody)
  | PutOrderStatus (req : Req) (id : ObjectId) (status : OrderStatus)
      (notes : option string)
  | PutOrderCancel (req : Req) (id : ObjectId) (reason : option string)
  | PutDishStock (id : ObjectId) (quantity : Quantity) (operation : StockOperation).

(** The database a request leaves behind, whatever the response. *)
Definition handle (r : Request) (db : Db) : Db :=
  match r with
  | PostOrder req body => snd (createOrder req body db)
  | PutOrderStatus req id status notes => snd (setOrderStatus req id status notes db)
  | PutOrderCancel req id reason => snd (cancelOrder req id reason db)
  | PutDishStock id quantity operation => snd (updateDishStock id quantity operation db)
  end.

(** ** Vocabulary of the statements *)

(** The dish [d] after the lines of [items] that refer to it have been
    applied in order, each as [updateStock (delta item)]. *)
Definition stockAfter (delta : Order.Item -> Z) (d : ObjectId)
    (items : list Order.Item) (dish : Dish.t) : Dish.t :=
  fold_left (fun dish item =>
               if bool_decide (Order.dishId item = d)
               then Dish.updateStock (delta item) dish else dish)
            items dish.

(** The quantity of dish [d] that the lines of [items] order in total. *)
Definition orderedQuantity (d : ObjectId) (items : list Order.Item) : Z :=
  foldr Z.add 0%Z
    (map Order.quantity
       (List.filter (fun item => bool_decide (Order.dishId item = d)) items)).

(** The derived flags of a dish agree with its stored quantity. *)
Definition flagsAgree (dish : Dish.t) : Prop :=
  Dish.isLowStock dish = (Dish.stockQuantity dish <=? Dish.lowStockThreshold dish)%Z
  /\ Dish.isOutOfStock dish = (Dish.stockQuantity dish =? 0)%Z.

(** The line the validation loop records for a request item served by
    [dish]. *)
Definition validatedLine (dish : Dish.t) (item : ItemRequest) : Order.Item :=
  Order.mkItem (req_dishId item) (Dish.name dish) (Dish.price dish)
    (req_quantity item) (default [] (req_customizations item))
    (itemTotalOf (Dish.price dish) item).

(** The validation loop accepts [item] in database [db] and records [line]. *)
Definition accepts (restaurantId : ObjectId) (db : Db)
    (item : ItemRequest) (line : Order.Item) : Prop :=
  exists dish,
    dishes db !! req_dishId item = Some dish
    /\ Dish.restaurantId dish = restaurantId
    /\ Dish.isAvailable dish = true
    /\ Dish.isOutOfStock dish = false
    /\ line = validatedLine dish item.

(** The sum the code accumulates over the lines, from the left. *)
Definition sumOfLines (start : Number) (lines : list Order.Item) : Number :=
  fold_left (fun sum line => (sum + Order.totalPrice line)%float) lines start.



(** The document that [createOrder] hands to [Order.create], when the
    request gets that far. *)
Definition orderDraft (req : Req) (body : CreateOrderBody) (db : Db) : option Order.t :=
  if negb (validCreateOrderBody body) then None else
  match fst (foldM (validateItem (body_restaurantId body)) (0%float, [])
               (body_items body) db),
        restaurants db !! body_restaurantId body with
  | Success (subtotal, validatedItems), Some restaurant =>
      Some (newOrder req body restaurant subtotal validatedItems)
  | _, _ => None
  end.

(** ** Sample data *)

(** Identifiers of the sample documents. *)
Definition ex_dish1 : ObjectId := "d15400000000000000000001".
Definition ex_dish2 : ObjectId := "d15400000000000000000002".
Definition ex_rest1 : ObjectId := "4e5700000000000000000001".
Definition ex_table1 : ObjectId := "7ab1e0000000000000000001".
Definition ex_order1 : ObjectId := "04de40000000000000000001".
Definition ex_order2 : ObjectId := "04de40000000000000000002".
Definition ex_user1 : ObjectId := "05e400000000000000000001".

(** 2 November 2026, noon. *)
Definition ex_noon : Date := mkDate 2026 10 2 43200000%N.

Definition ex_req : Req := mkReq ex_user1 ex_noon ex_order1.

(** A second request of the same user at the same time; the driver would
    give its document another identifier. *)
Definition ex_req2 : Req := mkReq ex_user1 ex_noon ex_order2.

Definition ex_burger : Dish.t :=
  Dish.mk "Burger" ex_rest1 12.99 true 25 10 false false.

Definition ex_table (status : TableStatus) (current : option ObjectId) : Table.t :=
  Table.mk "T1" ex_rest1 status current true.

Definition ex_restaurant : Restaurant.t :=
  Restaurant.mk "Bistro" (Restaurant.mkSettings 8.5 10 3).

(** A database with one dish, one table in the given state, one restaurant
    and no order. *)
Definition ex_db (status : TableStatus) (current : option ObjectId) : Db :=
  mkDb [] {[ ex_dish1 := ex_burger ]} {[ ex_table1 := ex_table status current ]}
       {[ ex_rest1 := ex_restaurant ]}.

(** Two burgers with one customization of 1.50, eaten in at table T1. *)
Definition ex_body : CreateOrderBody :=
  mkCreateOrderBody ex_rest1 dine_in
    [mkItemRequest ex_dish1 2
       (Some [Order.mkCustomization "cheese" "extra" (Some 1.5%float)])]
    cash (Some ex_table1).

(** Three burgers with cheese at 1.50 and a sauce that carries no price,
    delivered. *)
Definition ex_body_delivery : CreateOrderBody :=
  mkCreateOrderBody ex_rest1 delivery
    [mkItemRequest ex_dish1 3
       (Some [Order.mkCustomization "cheese" "extra" (Some 1.5%float);
              Order.mkCustomization "sauce" "none" None])]
    card None.

(** A stored order for these two burgers. *)
Definition ex_order : Order.t :=
  Order.mk ex_order1 "ORD2611020001" ex_rest1 ex_user1 (Some ex_table1) dine_in
    [Order.mkItem ex_dish1 "Burger" 12.99 2
       [Order.mkCustomization "cheese" "extra" (Some 1.5%float)]
       27.48]
    27.48 2.3358000000000003 2.7480000000000002 0 0 32.563800000000001
    pending [] cash None None None None ex_noon.

(** A database that holds this order: its two burgers are gone from the
    stock and its table is taken. The same database once the order is
    completed. *)
Definition ex_db_placed : Db :=
  mkDb [ex_order]
       {[ ex_dish1 := Dish.mk "Burger" ex_rest1 12.99 true 23 10 false false ]}
       {[ ex_table1 := ex_table occupied (Some ex_order1) ]}
       {[ ex_rest1 := ex_restaurant ]}.

Definition ex_db_completed : Db :=
  snd (setOrderStatus ex_req ex_order1 completed None ex_db_placed).

(** A dish of which a single portion is left, and a request for five
    portions of it: the validation reads the out-of-stock flag, not the
    quantity. *)
Definition ex_last_portion : Dish.t :=
  Dish.mk "Soup" ex_rest1 4.5 true 1 10 true false.

Definition ex_db_scarce : Db :=
  mkDb [] {[ ex_dish2 := ex_last_portion ]} ∅ {[ ex_rest1 := ex_restaurant ]}.

Definition ex_body_scarce : CreateOrderBody :=
  mkCreateOrderBody ex_rest1 takeout [mkItemRequest ex_dish2 5 None] cash None.

(** * Further code of the backend *)

(** ** The dishes router: PUT /api/dishes/:id/availability *)

(** Assignment [dish.isAvailable = b]. *)
Definition set_isAvailable (b : bool) (dish : Dish.t) : Dish.t :=
  Dish.mk (Dish.name dish) (Dish.restaurantId dish) (Dish.price dish) b
    (Dish.stockQuantity dish) (Dish.lowStockThreshold dish)
    (Dish.isLowStock dish) (Dish.isOutOfStock dish).

Definition setDishAvailability (id : ObjectId) (isAvailable : bool)
    : Handler Dish.t :=
  dish ← Dish_findById id;
  match dish with
  | None => respond DishNotFound
  | Some dish =>
      let dish := set_isAvailable isAvailable dish in
      Dish_save id dish;;
      mret dish
  end.

(** ** routes/tables.js: DELETE /api/tables/:id and PUT /api/tables/:id/status *)

(** The failure responses of the two routes. *)
Inductive TableFailure :=
  | TableNotFound            (* 404 *)
  | CannotDeleteOccupied.    (* 400, cannot delete occupied table *)

(** DELETE /api/tables/:id. [table.remove()] is the document method of
    Mongoose up to version 6, where it deletes the document; later versions
    have no such method, the call ends in a TypeError and the table stays
    stored. The definition takes the first reading; what is stated about
    this route below holds under both. *)
Definition deleteTable (id : ObjectId) (db : Db) : (TableFailure + unit) * Db :=
  match tables db !! id with
  | None => (inl TableNotFound, db)
  | Some table =>
      if bool_decide (Table.status table = occupied)
      then (inl CannotDeleteOccupied, db)
      else (inr tt, set_tables (delete id (tables db)) db)
  end.

(** Assignment [table.status = status]. *)
Definition set_status (status : TableStatus) (table : Table.t) : Table.t :=
  Table.mk (Table.tableNumber table) (Table.restaurantId table) status
    (Table.currentOrder table) (Table.isActive table).

(** PUT /api/tables/:id/status; the body's [status] is one of the five
    statuses. *)
Definition updateTableStatus (id : ObjectId) (status : TableStatus) (db : Db)
    : (TableFailure + Table.t) * Db :=
  match tables db !! id with
  | None => (inl TableNotFound, db)
  | Some table =>
      let table := set_status status table in
      (inr table, set_tables (<[id := table]> (tables db)) db)
  end.

(** ** routes/orders.js: POST /api/orders/:id/review *)

(** The three fields of an order document that the route writes and [Order.t]
    leaves out; they are kept per order identifier. *)
Record ReviewFields := mkReviewFields {
  rating : Z;
  review : option string;
  reviewDate : Date
}.

(** The failure responses of the route. *)
Inductive ReviewFailure :=
  | ReviewValidationError    (* 400, rating is not an integer from 1 to 5 *)
  | ReviewOrderNotFound      (* 404 *)
  | Forbidden                (* 403, not authorized to review this order *)
  | InvalidState.            (* 400, can only review completed orders *)

Definition addReview (req : Req) (id : ObjectId) (rating_ : Z)
    (review_ : option string) (st : Db * gmap string ReviewFields)
    : (ReviewFailure + (Order.t * ReviewFields)) * (Db * gmap string ReviewFields) :=
  let '(db, reviews) := st in
  if negb ((1 <=? rating_)%Z && (rating_ <=? 5)%Z)
  then (inl ReviewValidationError, st)
  else
    match List.find (hasId id) (orders db) with
    | None => (inl ReviewOrderNotFound, st)
    | Some order =>
        if negb (bool_decide (Order.customerId order = user req))
        then (inl Forbidden, st)
        else if negb (bool_decide (Order.status order = completed))
        then (inl InvalidState, st)
        else
          let fields := mkReviewFields rating_ review_ (now req) in
          (inr (order, fields),
           (snd (Order_save (now req) order db), <[id := fields]> reviews))
    end.

(** ** middleware/auth.js *)

Inductive Role := super_admin | restaurant_owner | staff | customer.

#[global] Instance Role_eq_dec : EqDecision Role.
Proof. solve_decision. Defined.

(** What the middleware reads of [req.user]. *)
Record User := mkUser {
  role : Role;
  user_restaurantId : option ObjectId
}.

(** What a middleware does with the request. *)
Inductive Gate :=
  | Next                     (* next() *)
  | Status (code : nat).     (* res.status(code).json(..) *)

(** [authorize(...roles)]. *)
Definition authorize (roles : list Role) (user : option User) : Gate :=
  match user with
  | None => Status 401
  | Some user =>
      if bool_decide (role user ∈ roles) then Next else Status 403
  end.

(** [a || b] on two optional strings: a missing and an empty string are
    falsy. *)
Definition orString (a b : option string) : option string :=
  match a with
  | Some s => if bool_decide (s = EmptyString) then b else a
  | None => b
  end.

(** [canAccessRestaurant]. *)
Definition canAccessRestaurant (user : option User)
    (params_restaurantId body_restaurantId_ : option string) : Gate :=
  match user with
  | None => Status 401
  | Some user =>
      match orString params_restaurantId body_restaurantId_ with
      | None => Status 400
      | Some restaurantId =>
          if bool_decide (restaurantId = EmptyString) then Status 400
          else if bool_decide (role user = super_admin) then Next
          else if bool_decide (role user = restaurant_owner)
                  && bool_decide (user_restaurantId user = Some restaurantId)
          then Next
          else if bool_decide (role user = staff)
                  && bool_decide (user_restaurantId user = Some restaurantId)
          then Next
          else Status 403
      end
  end.

(** ** The reports router: GET /api/reports/inventory/:restaurantId *)

(** [Dish.find({ restaurantId })]; the documents come in the order of
    [map_to_list], on which only the two sums of Numbers depend. *)
Definition Dish_findByRestaurant (restaurantId : ObjectId) (db : Db) : list Dish.t :=
  List.filter (fun dish => bool_decide (Dish.restaurantId dish = restaurantId))
    (map snd (map_to_list (dishes db))).

(** [dishes.reduce((sum, dish) => sum + (dish.stockQuantity * dish.price), 0)]. *)
Definition stockValue (ds : list Dish.t) : Number :=
  fold_left (fun sum dish =>
               (sum + Number_of_Z (Dish.stockQuantity dish) * Dish.price dish)%float)
    ds 0%float.

Record InventorySummary := mkInventorySummary {
  totalDishes : nat;
  lowStockDishes : nat;
  outOfStockDishes : nat;
  availableDishes : nat;
  totalValue : Number;
  lowStockValue : Number
}.

(** The [summary] of the inventory report. *)
Definition inventorySummary (restaurantId : ObjectId) (db : Db) : InventorySummary :=
  let dishes := Dish_findByRestaurant restaurantId db in
  let lowStockDishes := List.filter Dish.isLowStock dishes in
  let outOfStockDishes := List.filter Dish.isOutOfStock dishes in
  let availableDishes := List.filter (fun dish => negb (Dish.isOutOfStock dish)) dishes in
  mkInventorySummary (length dishes) (length lowStockDishes)
    (length outOfStockDishes) (length availableDishes)
    (stockValue dishes) (stockValue lowStockDishes).

(** ** Vocabulary of the further statements *)

(** The response with which the validation loop stops at [item], if it
    does. *)
Definition violationOf (restaurantId : ObjectId) (db : Db) (item : ItemRequest)
    : option Failure :=
  match dishes db !! req_dishId item with
  | None => Some (InvalidReference (req_dishId item))
  | Some dish =>
      if negb (bool_decide (Dish.restaurantId dish = restaurantId))
      then Some (InvalidReference (req_dishId item))
      else if negb (Dish.isAvailable dish)
      then Some (ItemUnavailable (Dish.name dish))
      else if Dish.isOutOfStock dish
      then Some (ItemOutOfStock (Dish.name dish))
      else None
  end.

(** A table refers to an order only while it is occupied. *)
Definition tableConsistent (table : Table.t) : Prop :=
  Table.currentOrder table <> None -> Table.status table = occupied.

(** The status of an order is the one of its newest history entry; an order
    without history is pending. *)
Definition statusMatchesHistory (o : Order.t) : Prop :=
  Order.status o
  = default pending (Order.entryStatus <$> last (Order.statusHistory o)).

(** What is fixed when an order is created. *)
Definition createdPart (o : Order.t) :=
  (Order._id o, Order.orderNumber o, Order.restaurantId o, Order.customerId o,
   Order.tableId o, Order.orderType o, Order.items o,
   (Order.subtotal o, Order.taxAmount o, Order.serviceCharge o,
    Order.deliveryFee o, Order.discountAmount o, Order.totalAmount o),
   Order.paymentMethod o, Order.createdAt o).

(** A run of requests. *)
Definition handleAll (rs : list Request) (db : Db) : Db :=
  fold_left (fun db r => handle r db) rs db.

(** ** Sample data of the further statements *)

Definition ex_free_table : Table.t := ex_table available None.

(** The sample dish marked out of stock, and a database holding it. *)
Definition ex_sold_out : Dish.t :=
  Dish.mk "Burger" ex_rest1 12.99 true 0 10 true true.

Definition ex_db_sold_out : Db :=
  mkDb [] {[ ex_dish1 := ex_sold_out ]} ∅ {[ ex_rest1 := ex_restaurant ]}.

(** A handler that leaves one part of the database as it is, and a handler
    that keeps a property of the database, whatever their response. *)
Definition keepsPart {X A} (part : Db -> X) (h : Handler A) : Prop :=
  forall db, part (snd (h db)) = part db.

Definition preserves {A} (I : Db -> Prop) (h : Handler A) : Prop :=
  forall db, I db -> I (snd (h db)).

(** Every stored table is consistent; every stored dish has a property. *)
Definition tablesConsistent (db : Db) : Prop :=
  forall t table, tables db !! t = Some table -> tableConsistent table.

Definition everyDish (P : Dish.t -> Prop) (db : Db) : Prop :=
  forall d dish, dishes db !! d = Some dish -> P dish.

(** A staff member of the sample restaurant, and an administrator. *)
Definition ex_waiter : User := mkUser staff (Some ex_rest1).

Definition ex_admin : User := mkUser super_admin None.

(** * Properties *)

(** ** Reading the handler monad *)

Lemma bind_success {A B} (m : Handler A) (k : A -> Handler B) db a db' :
  m db = (Success a, db') -> (m ≫= k) db = k a db'.
Proof. intros H. unfold mbind, Handler_bind. now rewrite H. Qed.

Lemma bind_failed {A B} (m : Handler A) (k : A -> Handler B) db f db' :
  m db = (Failed f, db') -> (m ≫= k) db = (Failed f, db').
Proof. intros H. unfold mbind, Handler_bind. now rewrite H. Qed.

Lemma bind_inv {A B} (m : Handler A) (k : A -> Handler B) db b db2 :
  (m ≫= k) db = (Success b, db2) ->
  exists a db1, m db = (Success a, db1) /\ k a db1 = (Success b, db2).
Proof.
  unfold mbind, Handler_bind. destruct (m db) as [[a|f] db1]; intros H.
  - now exists a, db1.
  - discriminate.
Qed.

(** ** Stored orders: lookup after a write *)

Section OrderStore.

Variable id : ObjectId.
Variable o' : Order.t.
Hypothesis o'_id : Order._id o' = id.

Lemma find_after_write os o :
  List.find (hasId id) os = Some o ->
  List.find (hasId id) (map (fun x => if hasId id x then o' else x) os) = Some o'.
Proof.
  assert (Hid : hasId id o' = true)
    by (unfold hasId; now apply bool_decide_eq_true_2).
  induction os as [|x os IH]; simpl; [discriminate|].
  destruct (hasId id x) eqn:E.
  - intros _. now rewrite Hid.
  - rewrite E. exact IH.
Qed.

Lemma find_other_after_write os id2 :
  id2 <> id ->
  List.find (hasId id2) (map (fun x => if hasId id x then o' else x) os)
  = List.find (hasId id2) os.
Proof.
  intros Hne.
  assert (Hid : hasId id2 o' = false)
    by (unfold hasId; apply bool_decide_eq_false_2; congruence).
  induction os as [|x os IH]; simpl; [done|].
  destruct (hasId id x) eqn:E.
  - assert (Hx : hasId id2 x = false).
    { unfold hasId in *. apply bool_decide_eq_true_1 in E.
      apply bool_decide_eq_false_2. congruence. }
    rewrite Hid, Hx. exact IH.
  - destruct (hasId id2 x); [done | exact IH].
Qed.

End OrderStore.

Lemma find_hasId id os o :
  List.find (hasId id) os = Some o -> Order._id o = id.
Proof.
  intros H. apply find_some in H as [_ H].
  unfold hasId in H. now apply bool_decide_eq_true_1 in H.
Qed.

(** ** The two status handlers, computed *)

(** The document [setOrderStatus] writes back. *)
Lemma setOrderStatus_found req id status notes db o :
  List.find (hasId id) (orders db) = Some o ->
  let o1 := Order.updateStatus status (user req) notes (now req) o in
  let o2 := if bool_decide (status = delivered) || bool_decide (status = completed)
            then Order.set_actualDeliveryTime (now req) o1 else o1 in
  let o3 := if bool_decide (status = cancelled) || bool_decide (status = rejected)
            then Order.set_cancelled (user req) (now req) o2 else o2 in
  setOrderStatus req id status notes db
  = (Success o3,
     set_orders (map (fun x => if hasId (Order._id o3) x then o3 else x) (orders db)) db).
Proof.
  intros H. unfold setOrderStatus, Order_findById, Order_save, Order_preSave,
    Order_replace, mbind, Handler_bind, mret, Handler_ret. simpl. rewrite H. reflexivity.
Qed.

Lemma cancelOrder_refused req id reason db o :
  List.find (hasId id) (orders db) = Some o ->
  cannotCancel (Order.status o) = true ->
  cancelOrder req id reason db = (Failed InvalidStateTransition, db).
Proof.
  intros H Hc. unfold cancelOrder, Order_findById, mbind, Handler_bind, respond.
  rewrite H, Hc. reflexivity.
Qed.

(** ** The stock loops *)

Lemma stockAfter_cons delta d item items dish :
  stockAfter delta d (item :: items) dish
  = stockAfter delta d items
      (if bool_decide (Order.dishId item = d)
       then Dish.updateStock (delta item) dish else dish).
Proof. reflexivity. Qed.

Lemma forM_cons {A} (body : A -> Handler unit) x l db db1 :
  body x db = (Success tt, db1) ->
  forM_ body (x :: l) db = forM_ body l db1.
Proof. intros H. unfold forM_. simpl. now rewrite (bind_success _ _ _ _ _ H). Qed.

Lemma restoreStock_found item db dish :
  dishes db !! Order.dishId item = Some dish ->
  restoreStock item db
  = (Success tt,
     set_dishes (<[Order.dishId item := Dish.updateStock (Order.quantity item) dish]>
                   (dishes db)) db).
Proof.
  intros H. unfold restoreStock, Dish_findById, mbind, Handler_bind.
  now rewrite H.
Qed.

Lemma restoreStock_missing item db :
  dishes db !! Order.dishId item = None ->
  restoreStock item db = (Success tt, db).
Proof.
  intros H. unfold restoreStock, Dish_findById, mbind, Handler_bind.
  now rewrite H.
Qed.

(** The restoring loop never fails, touches only the dishes, and leaves each
    stored dish as [stockAfter] describes. *)
Lemma restoreStock_loop items : forall db,
  exists ds,
    forM_ restoreStock items db = (Success tt, set_dishes ds db)
    /\ forall d, ds !! d = stockAfter Order.quantity d items <$> dishes db !! d.
Proof.
  induction items as [|item items IH]; intros db.
  - exists (dishes db). split; [by destruct db|]. intros d. simpl.
    by destruct (dishes db !! d).
  - destruct (dishes db !! Order.dishId item) as [dish|] eqn:Hd.
    + rewrite (forM_cons _ _ _ _ _ (restoreStock_found _ _ _ Hd)).
      destruct (IH (set_dishes (<[Order.dishId item :=
                  Dish.updateStock (Order.quantity item) dish]> (dishes db)) db))
        as (ds & Hrun & Hds).
      rewrite Hrun. exists ds. split; [reflexivity|].
      intros d. rewrite Hds. simpl dishes.
      destruct (decide (Order.dishId item = d)) as [<-|Hk].
      * rewrite lookup_insert_eq, Hd. cbn [fmap option_fmap option_map].
        now rewrite stockAfter_cons, bool_decide_eq_true_2.
      * rewrite lookup_insert_ne by done.
        destruct (dishes db !! d); cbn [fmap option_fmap option_map]; [|done].
        now rewrite stockAfter_cons, bool_decide_eq_false_2.
    + rewrite (forM_cons _ _ _ _ _ (restoreStock_missing _ _ Hd)).
      destruct (IH db) as (ds & Hrun & Hds).
      rewrite Hrun. exists ds. split; [reflexivity|]. intros d. rewrite Hds.
      destruct (dishes db !! d) eqn:Hd'; cbn [fmap option_fmap option_map]; [|done].
      rewrite stockAfter_cons, bool_decide_eq_false_2; [done|].
      intros Heq. rewrite Heq in Hd. congruence.
Qed.

(** The decrementing loop succeeds when every line refers to a stored dish. *)
(** *** Arithmetic of [stockAfter] *)

Lemma updateStock_stock q dish :
  Dish.stockQuantity (Dish.updateStock q dish)
  = Z.max 0 (Dish.stockQuantity dish + q).
Proof. reflexivity. Qed.

Lemma updateStock_flags q dish : flagsAgree (Dish.updateStock q dish).
Proof. split; reflexivity. Qed.

Lemma orderedQuantity_cons d item items :
  orderedQuantity d (item :: items)
  = ((if bool_decide (Order.dishId item = d) then Order.quantity item else 0)
     + orderedQuantity d items)%Z.
Proof.
  unfold orderedQuantity. simpl. case_bool_decide; reflexivity.
Qed.

Lemma orderedQuantity_nonneg d items :
  Forall (fun item => 0 <= Order.quantity item)%Z items ->
  (0 <= orderedQuantity d items)%Z.
Proof.
  induction 1 as [|item items Hq _ IH]; [done|].
  rewrite orderedQuantity_cons. case_bool_decide; lia.
Qed.

Lemma stockAfter_restore d items : forall dish,
  Forall (fun item => 0 <= Order.quantity item)%Z items ->
  (0 <= Dish.stockQuantity dish)%Z ->
  Dish.stockQuantity (stockAfter Order.quantity d items dish)
  = (Dish.stockQuantity dish + orderedQuantity d items)%Z.
Proof.
  induction items as [|item items IH]; intros dish Hall Hs.
  - unfold orderedQuantity. simpl. lia.
  - apply Forall_cons in Hall as [Hq Hall].
    rewrite stockAfter_cons, orderedQuantity_cons. case_bool_decide.
    + rewrite IH; [|done|rewrite updateStock_stock; lia].
      rewrite updateStock_stock. lia.
    + rewrite IH by done. lia.
Qed.

(** A dish that some line refers to ends with recomputed flags. *)
Lemma stockAfter_flags delta d items : forall dish,
  Exists (fun item => Order.dishId item = d) items ->
  flagsAgree (stockAfter delta d items dish).
Proof.
  induction items as [|item items IH]; intros dish Hex.
  - by apply Exists_nil in Hex.
  - rewrite stockAfter_cons.
    destruct (decide (Exists (fun item => Order.dishId item = d) items)) as [H|H].
    + by apply IH.
    + apply Exists_cons in Hex as [Hd|Hex]; [|done].
      rewrite bool_decide_eq_true_2 by done.
      assert (Hid : forall dish0, stockAfter delta d items dish0 = dish0).
      { clear -H. induction items as [|it items IH]; intros dish0; [done|].
        rewrite stockAfter_cons.
        rewrite bool_decide_eq_false_2.
        - apply IH. intros Hc. apply H. by apply Exists_cons_tl.
        - intros Hc. apply H. by apply Exists_cons_hd. }
      rewrite Hid. apply updateStock_flags.
Qed.

Lemma stockAfter_unreferenced delta d items dish :
  Forall (fun item => Order.dishId item <> d) items ->
  stockAfter delta d items dish = dish.
Proof.
  revert dish. induction items as [|item items IH]; intros dish Hall; [done|].
  apply Forall_cons in Hall as [Hd Hall].
  rewrite stockAfter_cons, bool_decide_eq_false_2 by done. by apply IH.
Qed.

(** ** The cancel handler, computed *)

Lemma Order_save_run date o db :
  Order_save date o db
  = (Success tt,
     set_orders (map (fun x => if hasId (Order._id o) x then o else x) (orders db)) db).
Proof. reflexivity. Qed.

Lemma freeTable_run o db :
  exists ts,
    freeTable o db = (Success tt, set_tables ts db)
    /\ (forall t tb,
          Order.orderType o = dine_in -> Order.tableId o = Some t ->
          tables db !! t = Some tb -> ts !! t = Some (Table.free tb))
    /\ (forall t,
          Order.orderType o <> dine_in \/ Order.tableId o <> Some t ->
          ts !! t = tables db !! t).
Proof.
  unfold freeTable.
  destruct (Order.orderType o) eqn:Ety;
    try (exists (tables db); split; [by destruct db|]; split; [done|done]).
  destruct (Order.tableId o) as [t0|] eqn:Etb;
    try (exists (tables db); split; [by destruct db|]; split; [done|done]).
  unfold Table_findById, Table_save, mbind, Handler_bind, mret, Handler_ret.
  destruct (tables db !! t0) as [tb0|] eqn:Hl.
  - exists (<[t0 := Table.free tb0]> (tables db)). split; [done|]. split.
    + intros t tb _ [= ->] Ht. rewrite lookup_insert_eq. congruence.
    + intros t [?|Hne]; [done|]. rewrite lookup_insert_ne; [done|congruence].
  - exists (tables db). split; [by destruct db|]. split; [|done].
    intros t tb _ [= ->] Ht. congruence.
Qed.

Lemma cancelOrder_accepted req id reason db o :
  List.find (hasId id) (orders db) = Some o ->
  cannotCancel (Order.status o) = false ->
  let o' := Order.set_cancelled (user req) (now req)
              (Order.set_cancellationReason reason
                 (Order.updateStatus cancelled (user req) reason (now req) o)) in
  exists ds ts,
    cancelOrder req id reason db
    = (Success o',
       mkDb (map (fun x => if hasId (Order._id o') x then o' else x) (orders db))
            ds ts (restaurants db))
    /\ (forall d, ds !! d = stockAfter Order.quantity d (Order.items o) <$> dishes db !! d)
    /\ (forall t tb,
          Order.orderType o = dine_in -> Order.tableId o = Some t ->
          tables db !! t = Some tb -> ts !! t = Some (Table.free tb))
    /\ (forall t,
          Order.orderType o <> dine_in \/ Order.tableId o <> Some t ->
          ts !! t = tables db !! t).
Proof.
  intros Hfind Hc o'.
  set (db1 := set_orders (map (fun x => if hasId (Order._id o') x then o' else x)
                            (orders db)) db).
  destruct (restoreStock_loop (Order.items o') db1) as (ds & Hloop & Hds).
  destruct (freeTable_run o' (set_dishes ds db1)) as (ts & Hfree & Hts1 & Hts2).
  exists ds, ts. split; [|split; [exact Hds|split; [exact Hts1|exact Hts2]]].
  unfold cancelOrder.
  rewrite (bind_success (Order_findById id) _ db (Some o) db) by (unfold Order_findById; now rewrite Hfind).
  rewrite Hc. fold o'.
  rewrite (bind_success _ _ _ _ _ (Order_save_run (now req) o' db)). fold db1.
  rewrite (bind_success _ _ _ _ _ Hloop).
  rewrite (bind_success _ _ _ _ _ Hfree).
  reflexivity.
Qed.

(** ** The create handler, step by step *)

Lemma validateItem_violation rid acc item db f :
  violationOf rid db item = Some f ->
  validateItem rid acc item db = (Failed f, db).
Proof.
  destruct acc as [sub vs].
  unfold violationOf, validateItem, Dish_findById, mbind, Handler_bind, respond.
  destruct (dishes db !! req_dishId item) as [dish|]; [|now intros [= <-]].
  destruct (negb (bool_decide _)); [now intros [= <-]|].
  destruct (negb (Dish.isAvailable dish)); [now intros [= <-]|].
  destruct (Dish.isOutOfStock dish); [now intros [= <-]|discriminate].
Qed.

Lemma validateItem_passes rid sub vs item db :
  violationOf rid db item = None ->
  exists dish,
    accepts rid db item (validatedLine dish item)
    /\ validateItem rid (sub, vs) item db
       = (Success ((sub + Order.totalPrice (validatedLine dish item))%float,
                   vs ++ [validatedLine dish item]), db).
Proof.
  unfold violationOf, validateItem, Dish_findById, mbind, Handler_bind, respond,
    accepts.
  destruct (dishes db !! req_dishId item) as [dish|] eqn:Hd; [|discriminate].
  case_bool_decide as Hr; simpl; [|discriminate].
  destruct (Dish.isAvailable dish) eqn:Ha; simpl; [|discriminate].
  destruct (Dish.isOutOfStock dish) eqn:Ho; simpl; [discriminate|].
  intros _. exists dish. split; [|reflexivity].
  exists dish. repeat split; assumption.
Qed.

Lemma foldM_cons {A B} (body : B -> A -> Handler B) acc x l :
  foldM body acc (x :: l) = body acc x ≫= (fun acc' => foldM body acc' l).
Proof. reflexivity. Qed.

Lemma validate_loop_passes rid items : forall sub vs db,
  Forall (fun item => violationOf rid db item = None) items ->
  exists lines,
    Forall2 (accepts rid db) items lines
    /\ foldM (validateItem rid) (sub, vs) items db
       = (Success (sumOfLines sub lines, vs ++ lines), db).
Proof.
  induction items as [|item items IH]; intros sub vs db Hall.
  - exists []. split; [constructor|]. simpl. now rewrite app_nil_r.
  - apply Forall_cons in Hall as [Hitem Hall].
    destruct (validateItem_passes rid sub vs item db Hitem) as (dish & Hacc & Hrun).
    destruct (IH (sub + Order.totalPrice (validatedLine dish item))%float
                 (vs ++ [validatedLine dish item]) db Hall) as (lines & Hlines & Hloop).
    exists (validatedLine dish item :: lines). split; [now constructor|].
    rewrite foldM_cons, (bind_success _ _ _ _ _ Hrun), Hloop.
    now rewrite <- app_assoc.
Qed.

Lemma validate_loop_stops rid good bad rest f : forall acc db,
  Forall (fun item => violationOf rid db item = None) good ->
  violationOf rid db bad = Some f ->
  foldM (validateItem rid) acc (good ++ bad :: rest) db = (Failed f, db).
Proof.
  induction good as [|item good IH]; intros [sub vs] db Hall Hbad.
  - cbn [app]. rewrite foldM_cons. apply bind_failed.
    now apply validateItem_violation.
  - apply Forall_cons in Hall as [Hitem Hall].
    destruct (validateItem_passes rid sub vs item db Hitem) as (dish & _ & Hrun).
    cbn [app]. rewrite foldM_cons, (bind_success _ _ _ _ _ Hrun). now apply IH.
Qed.

(** A list of items passes as a whole or has a first item that does not. *)
Lemma first_violation rid db items :
  Forall (fun item => violationOf rid db item = None) items
  \/ exists good bad rest f,
       items = good ++ bad :: rest
       /\ Forall (fun item => violationOf rid db item = None) good
       /\ violationOf rid db bad = Some f.
Proof.
  induction items as [|item items IH]; [left; constructor|].
  destruct (violationOf rid db item) as [f|] eqn:Hv.
  - right. exists [], item, items, f. repeat split; [constructor | exact Hv].
  - destruct IH as [Hall | (good & bad & rest & f & -> & Hgood & Hbad)].
    + left. now constructor.
    + right. exists (item :: good), bad, rest, f. repeat split; [|exact Hbad].
      now constructor.
Qed.

(** [Order.create] refuses a document without order number before the hook
    that numbers it has run. *)
Lemma Order_create_refused date doc db :
  Order.orderNumber doc = EmptyString ->
  Order_create date doc db = (Failed (Uncaught SchemaValidation), db).
Proof.
  intros H. unfold Order_create, Order_validate.
  now rewrite bool_decide_eq_true_2 by exact H.
Qed.

(** The handler once the items have passed. *)
Lemma createOrder_validated req body db lines :
  validCreateOrderBody body = true ->
  foldM (validateItem (body_restaurantId body)) (0%float, []) (body_items body) db
  = (Success (sumOfLines 0%float lines, lines), db) ->
  (restaurants db !! body_restaurantId body = None ->
   orderDraft req body db = None
   /\ createOrder req body db = (Failed RestaurantNotFound, db))
  /\ (forall restaurant,
        restaurants db !! body_restaurantId body = Some restaurant ->
        orderDraft req body db
        = Some (newOrder req body restaurant (sumOfLines 0%float lines) lines)
        /\ createOrder req body db = (Failed (Uncaught SchemaValidation), db)).
Proof.
  intros Hv Hloop. unfold createOrder, orderDraft. rewrite Hv, Hloop.
  change (negb true) with false. cbv iota.
  rewrite (bind_success _ _ _ _ _ Hloop).
  rewrite (bind_success (Restaurant_findById (body_restaurantId body)) _ db
             (restaurants db !! body_restaurantId body) db) by reflexivity.
  simpl fst. split.
  - intros ->. split; reflexivity.
  - intros restaurant ->. split; [reflexivity|].
    apply bind_failed. now apply Order_create_refused.
Qed.

Lemma createOrder_invalid req body db :
  validCreateOrderBody body = false ->
  createOrder req body db = (Failed ValidationError, db).
Proof. intros H. unfold createOrder. now rewrite H. Qed.

Lemma createOrder_stops req body db good bad rest f :
  validCreateOrderBody body = true ->
  body_items body = good ++ bad :: rest ->
  Forall (fun item => violationOf (body_restaurantId body) db item = None) good ->
  violationOf (body_restaurantId body) db bad = Some f ->
  createOrder req body db = (Failed f, db).
Proof.
  intros Hv Hitems Hgood Hbad. unfold createOrder. rewrite Hv.
  change (negb true) with false. cbv iota. apply bind_failed.
  rewrite Hitems. now apply validate_loop_stops.
Qed.

(** The four ways in which the handler ends. *)
Lemma createOrder_cases req body db :
  createOrder req body db = (Failed ValidationError, db)
  \/ (exists item f,
        item ∈ body_items body
        /\ violationOf (body_restaurantId body) db item = Some f
        /\ createOrder req body db = (Failed f, db))
  \/ createOrder req body db = (Failed RestaurantNotFound, db)
  \/ createOrder req body db = (Failed (Uncaught SchemaValidation), db).
Proof.
  destruct (validCreateOrderBody body) eqn:Hv;
    [|left; now apply createOrder_invalid].
  right.
  destruct (first_violation (body_restaurantId body) db (body_items body))
    as [Hall | (good & bad & rest & f & Hitems & Hgood & Hbad)].
  - right.
    destruct (validate_loop_passes _ _ 0%float [] db Hall) as (lines & _ & Hloop).
    destruct (createOrder_validated req body db lines Hv Hloop) as (Hnone & Hsome).
    destruct (restaurants db !! body_restaurantId body) as [restaurant|] eqn:Hr.
    + right. now apply (Hsome restaurant).
    + left. now apply Hnone.
  - left. exists bad, f. split; [|split; [exact Hbad|]].
    + rewrite Hitems. apply elem_of_app. right. apply list_elem_of_here.
    + now apply createOrder_stops with good bad rest.
Qed.

(** No request creates an order, and none writes. *)
Lemma createOrder_fails req body db :
  exists f, createOrder req body db = (Failed f, db).
Proof.
  destruct (createOrder_cases req body db)
    as [E | [(item & f & _ & _ & E) | [E | E]]]; eauto.
Qed.

Lemma createOrder_writes_nothing req body db :
  snd (createOrder req body db) = db.
Proof. destruct (createOrder_fails req body db) as [f ->]. reflexivity. Qed.

(** ** Number facts *)

(** Subtracting zero leaves a Number as it is. *)
Lemma Number_sub_zero (x : Number) : (x - 0)%float = x.
Proof.
  apply Prim2SF_inj. rewrite FloatAxioms.sub_spec.
  unfold SF64sub, SFsub.
  change (Prim2SF 0) with (S754_zero false).
  destruct (Prim2SF x) as [s | s | | s m e]; try reflexivity.
  destruct s; reflexivity.
Qed.

(** ** Order numbers *)

(** *** The text of a sequence number can be read back *)






(** ** The database a handler leaves behind *)

Lemma snd_bind {A B} (m : Handler A) (k : A -> Handler B) db :
  snd ((m ≫= k) db)
  = match m db with
    | (Success a, db1) => snd (k a db1)
    | (Failed _, db1) => db1
    end.
Proof. unfold mbind, Handler_bind. now destruct (m db) as [[a|f] db1]. Qed.

Lemma NoDup_map_eq {A B} (f : A -> B) (l : list A) x y :
  NoDup (map f l) -> x ∈ l -> y ∈ l -> f x = f y -> x = y.
Proof.
  induction l as [|z l IH]; intros Hnd Hx Hy Hf; [by apply elem_of_nil in Hx|].
  simpl in Hnd. apply NoDup_cons in Hnd as [Hz Hnd].
  apply elem_of_cons in Hx as [->|Hx], Hy as [->|Hy]; try done.
  - exfalso. apply Hz. rewrite Hf. apply list_elem_of_In, in_map.
    now apply list_elem_of_In.
  - exfalso. apply Hz. rewrite <- Hf. apply list_elem_of_In, in_map.
    now apply list_elem_of_In.
  - now apply IH.
Qed.

(** ** The stock route, computed *)



(** * The order engine *)

(** ** C1 *)

(** C1: the code does not do what the claim says. For a dine-in request at
    table T1 with a dish that is in stock, [Order.create] refuses the
    document: its order number is required, and the hook that would set it
    runs only after the validation. The handler ends there with an uncaught
    error, before it reaches the table. Whether T1 is available, reserved or
    taken by another order, the response is that error and the database is
    the one before the request: no order is stored, the table is not
    occupied, and no refusal names the table. *)
Theorem C1_dine_in_order_not_created :
  createOrder ex_req ex_body (ex_db available None)
  = (Failed (Uncaught SchemaValidation), ex_db available None)
  /\ createOrder ex_req ex_body (ex_db reserved None)
     = (Failed (Uncaught SchemaValidation), ex_db reserved None)
  /\ createOrder ex_req ex_body (ex_db occupied (Some ex_order2))
     = (Failed (Uncaught SchemaValidation), ex_db occupied (Some ex_order2))
  /\ tables (snd (createOrder ex_req ex_body (ex_db available None))) !! ex_table1
     = Some (ex_table available None).
Proof. repeat split; vm_compute; reflexivity. Qed.

(** ** C2 *)

(** C2: the code does not do what the claim says. For a delivery of three
    burgers at 12.99 with one customization at 1.50 and one without price,
    under a tax rate of 8.5, a service charge of 10 and a delivery fee of 3,
    the handler computes the amounts by the formulas of the claim (line
    total 3 * 12.99 + 1.50 + 0, tax and service charge from the subtotal, the
    fee, no discount, their sum) and hands them to [Order.create], which
    refuses the document for its missing order number: no order is created
    that could carry them. *)
Theorem C2_amounts_computed_order_not_created :
  orderDraft ex_req ex_body_delivery (ex_db available None)
  = Some (Order.mk ex_order1 EmptyString ex_rest1 ex_user1 None delivery
            [Order.mkItem ex_dish1 "Burger" 12.99 3
               [Order.mkCustomization "cheese" "extra" (Some 1.5%float);
                Order.mkCustomization "sauce" "none" None]
               40.469999999999999]
            40.469999999999999 3.4399500000000001 4.0469999999999997 3 0
            50.956949999999999
            pending [] card None None None None ex_noon)
  /\ (12.99 * 3 + 1.5 + 0 = 40.469999999999999)%float
  /\ (40.469999999999999 * 8.5 / 100 = 3.4399500000000001)%float
  /\ (40.469999999999999 * 10 / 100 = 4.0469999999999997)%float
  /\ (40.469999999999999 + 3.4399500000000001 + 4.0469999999999997 + 3
      = 50.956949999999999)%float
  /\ createOrder ex_req ex_body_delivery (ex_db available None)
     = (Failed (Uncaught SchemaValidation), ex_db available None)
  /\ orders (snd (createOrder ex_req ex_body_delivery (ex_db available None))) = [].
Proof. repeat split; vm_compute; reflexivity. Qed.

(** ** C3 *)

(** C3: the code does not do what the claim says. The request for two of the
    25 burgers in stock ends at [Order.create], before the loop that takes
    the ordered quantities from the stock: 25 burgers remain, not 23. No
    order is stored, so the cancellation that would restore the stock finds
    none. *)
Theorem C3_stock_not_decremented :
  let db1 := snd (createOrder ex_req ex_body (ex_db available None)) in
  fst (createOrder ex_req ex_body (ex_db available None))
  = Failed (Uncaught SchemaValidation)
  /\ Dish.stockQuantity <$> dishes db1 !! ex_dish1 = Some 25%Z
  /\ cancelOrder ex_req ex_order1 None db1 = (Failed OrderNotFound, db1).
Proof. cbv zeta. repeat split; vm_compute; reflexivity. Qed.

(** ** C4 *)

(** C4: cancelling an order whose status is delivered, completed, cancelled or
    rejected fails with InvalidStateTransition and leaves the whole database
    as it was: the order record, every dish (stock quantity and flags) and
    every table (status and order reference). *)
Theorem C4_cancel_terminal_refused req id reason db o :
  List.find (hasId id) (orders db) = Some o ->
  Order.status o ∈ [delivered; completed; cancelled; rejected] ->
  cancelOrder req id reason db = (Failed InvalidStateTransition, db).
Proof.
  intros Hfind Hst. apply cancelOrder_refused with o; [exact Hfind|].
  unfold cannotCancel. now apply bool_decide_eq_true_2.
Qed.

(** C4, at the sample order once completed. *)
Lemma C4_cancel_terminal_refused_witness :
  cancelOrder ex_req ex_order1 (Some "too late") ex_db_completed
  = (Failed InvalidStateTransition, ex_db_completed).
Proof.
  eapply C4_cancel_terminal_refused.
  - vm_compute. reflexivity.
  - apply (bool_decide_unpack _). vm_compute. exact I.
Defined.

(** ** C5 *)

(** C5: cancelling an order that is not delivered, completed, cancelled or
    rejected succeeds; the stored order gets status cancelled through
    [updateStatus], the caller's reason is kept as it is in
    [cancellationReason] and in the note of the appended history entry; a
    dine-in order's table becomes available with no order reference,
    whatever its status was. A dish that no line refers to, stored or not,
    is left as it was. A stored dish is left as after one
    [updateStock (quantity)] per line that refers to it, so its stock grows
    by the ordered quantity and its flags are recomputed; this is stated
    where the Numbers add exactly: for a stock and quantities that are not
    negative and a sum within [MAX_SAFE_INTEGER]. *)
Theorem C5_cancel_effects req id reason db o :
  List.find (hasId id) (orders db) = Some o ->
  Order.status o ∉ [delivered; completed; cancelled; rejected] ->
  exists o' db',
    cancelOrder req id reason db = (Success o', db')
    /\ List.find (hasId id) (orders db') = Some o'
    /\ Order.status o' = cancelled
    /\ Order.cancellationReason o' = reason
    /\ Order.statusHistory o'
       = Order.statusHistory o
           ++ [Order.mkEntry cancelled (user req) (default EmptyString reason) (now req)]
    /\ (forall r, reason = Some r ->
          Order.cancellationReason o' = Some r
          /\ Order.notes <$> last (Order.statusHistory o') = Some r)
    /\ (forall d,
          Forall (fun item => Order.dishId item <> d) (Order.items o) ->
          dishes db' !! d = dishes db !! d)
    /\ (forall d, dishes db !! d = None -> dishes db' !! d = None)
    /\ (forall d dish,
          dishes db !! d = Some dish ->
          (0 <= Dish.stockQuantity dish)%Z ->
          Forall (fun item => 0 <= Order.quantity item)%Z (Order.items o) ->
          (Dish.stockQuantity dish + orderedQuantity d (Order.items o)
           <= MAX_SAFE_INTEGER)%Z ->
          exists dish',
            dishes db' !! d = Some dish'
            /\ dish' = stockAfter Order.quantity d (Order.items o) dish
            /\ Dish.stockQuantity dish'
               = (Dish.stockQuantity dish + orderedQuantity d (Order.items o))%Z
            /\ (Exists (fun item => Order.dishId item = d) (Order.items o) ->
                flagsAgree dish'))
    /\ (forall t table,
          Order.orderType o = dine_in -> Order.tableId o = Some t ->
          tables db !! t = Some table ->
          exists table',
            tables db' !! t = Some table'
            /\ Table.status table' = available
            /\ Table.currentOrder table' = None).
Proof.
  intros Hfind Hst.
  assert (Hc : cannotCancel (Order.status o) = false)
    by (unfold cannotCancel; now apply bool_decide_eq_false_2).
  destruct (cancelOrder_accepted req id reason db o Hfind Hc)
    as (ds & ts & Hrun & Hds & Hts & _).
  pose proof (find_hasId _ _ _ Hfind) as Hid.
  eexists _, _. split; [exact Hrun|]. simpl.
  split; [|split; [reflexivity|split; [reflexivity|split; [reflexivity|]]]].
  { rewrite Hid. now apply find_after_write with o. }
  split; [|split; [|split; [|split]]].
  - intros r ->. split; [reflexivity|]. now rewrite last_snoc.
  - intros d Hd. rewrite Hds. destruct (dishes db !! d) as [dish|]; [|reflexivity].
    simpl. f_equal. now apply stockAfter_unreferenced.
  - intros d Hd. now rewrite Hds, Hd.
  - intros d dish Hd Hs Hq _. eexists. split; [rewrite Hds, Hd; reflexivity|].
    split; [reflexivity|].
    split; [now apply stockAfter_restore|]. apply stockAfter_flags.
  - intros t table Hty Htb Ht. exists (Table.free table).
    split; [now apply Hts|]. split; reflexivity.
Qed.

(** C5, at the sample order while still pending. *)
Lemma C5_cancel_effects_witness :
  exists o' db',
    cancelOrder ex_req ex_order1 (Some "changed my mind") ex_db_placed
    = (Success o', db')
    /\ Order.status o' = cancelled
    /\ Order.cancellationReason o' = Some "changed my mind"
    /\ Order.notes <$> last (Order.statusHistory o') = Some "changed my mind"
    /\ Dish.stockQuantity <$> dishes db' !! ex_dish1 = Some 25%Z
    /\ Table.status <$> tables db' !! ex_table1 = Some available.
Proof.
  destruct (C5_cancel_effects ex_req ex_order1 (Some "changed my mind") ex_db_placed ex_order)
    as (o' & db' & Hrun & _ & Hst & _ & _ & Hverb & _ & _ & Hstock & Htable).
  - vm_compute. reflexivity.
  - apply (bool_decide_unpack _). vm_compute. exact I.
  - exists o', db'. split; [exact Hrun|]. split; [exact Hst|].
    destruct (Hverb _ eq_refl) as [H1 H2].
    split; [exact H1|]. split; [exact H2|]. split.
    + destruct (Hstock ex_dish1 (Dish.mk "Burger" ex_rest1 12.99 true 23 10 false false))
        as (dish' & Hd & _ & Hq & _).
      * vm_compute. reflexivity.
      * vm_compute. discriminate.
      * repeat constructor. vm_compute. discriminate.
      * vm_compute. discriminate.
      * rewrite Hd. simpl. rewrite Hq. vm_compute. reflexivity.
    + destruct (Htable ex_table1 (ex_table occupied (Some ex_order1)))
        as (table' & Ht & Hs & _).
      * reflexivity.
      * reflexivity.
      * vm_compute. reflexivity.
      * rewrite Ht. simpl. now rewrite Hs.
Defined.

(** ** C6 *)

(** C6: a status change made through [setOrderStatus], or through a
    [cancelOrder] that is accepted, appends exactly one entry to the order's
    status history, holding the new status, the acting user, the note (empty
    when none is given) and the time; the entries already there keep their
    place and content, the stored order is the updated one and no other
    order is touched. A refused cancellation changes nothing. *)
Theorem C6_history_append_only req id db o :
  List.find (hasId id) (orders db) = Some o ->
  (forall status notes, exists o' db',
      setOrderStatus req id status notes db = (Success o', db')
      /\ Order.statusHistory o'
         = Order.statusHistory o
             ++ [Order.mkEntry status (user req) (default EmptyString notes) (now req)]
      /\ List.find (hasId id) (orders db') = Some o'
      /\ forall id2, id2 <> id ->
           List.find (hasId id2) (orders db') = List.find (hasId id2) (orders db))
  /\ (forall reason,
      cannotCancel (Order.status o) = false ->
      exists o' db',
        cancelOrder req id reason db = (Success o', db')
        /\ Order.statusHistory o'
           = Order.statusHistory o
               ++ [Order.mkEntry cancelled (user req) (default EmptyString reason) (now req)]
        /\ List.find (hasId id) (orders db') = Some o'
        /\ forall id2, id2 <> id ->
             List.find (hasId id2) (orders db') = List.find (hasId id2) (orders db))
  /\ (forall reason,
      cannotCancel (Order.status o) = true ->
      snd (cancelOrder req id reason db) = db).
Proof.
  intros Hfind. pose proof (find_hasId _ _ _ Hfind) as Hid.
  split; [|split].
  - intros status notes.
    pose proof (setOrderStatus_found req id status notes db o Hfind) as Hrun.
    cbv zeta in Hrun. eexists _, _. split; [exact Hrun|].
    simpl orders.
    assert (Hid' : forall o1,
      Order._id (if bool_decide (status = cancelled) || bool_decide (status = rejected)
                 then Order.set_cancelled (user req) (now req)
                        (if bool_decide (status = delivered) || bool_decide (status = completed)
                         then Order.set_actualDeliveryTime (now req) o1 else o1)
                 else (if bool_decide (status = delivered) || bool_decide (status = completed)
                       then Order.set_actualDeliveryTime (now req) o1 else o1))
      = Order._id o1)
      by (intros o1; destruct (_ || _), (_ || _); reflexivity).
    rewrite Hid'. simpl Order._id. rewrite Hid.
    split; [|split].
    + destruct (_ || _), (_ || _); reflexivity.
    + apply find_after_write with o; [|exact Hfind].
      rewrite Hid'. exact Hid.
    + intros id2 Hne. apply find_other_after_write; [|exact Hne].
      rewrite Hid'. exact Hid.
  - intros reason Hc.
    destruct (cancelOrder_accepted req id reason db o Hfind Hc)
      as (ds & ts & Hrun & _).
    eexists _, _. split; [exact Hrun|]. simpl. rewrite Hid.
    split; [reflexivity|split].
    + now apply find_after_write with o.
    + intros id2 Hne. now apply find_other_after_write.
  - intros reason Hc. now rewrite (cancelOrder_refused req id reason db o).
Qed.

(** C6, at the sample order while still pending. *)
Lemma C6_history_append_only_witness :
  exists o' db',
    setOrderStatus ex_req ex_order1 confirmed (Some "on it") ex_db_placed
    = (Success o', db')
    /\ Order.statusHistory o' = [Order.mkEntry confirmed ex_user1 "on it" ex_noon].
Proof.
  destruct (C6_history_append_only ex_req ex_order1 ex_db_placed ex_order)
    as [Hset _].
  - vm_compute. reflexivity.
  - destruct (Hset confirmed (Some "on it")) as (o' & db' & Hrun & Hhist & _).
    exists o', db'. split; [exact Hrun | exact Hhist].
Defined.

(** ** C7 *)

(** C7, as stated, fails: for the order of two dishes at 12.99 with one
    customization of 1.50, under a tax rate of 8.5 and a service charge of 10,
    the tax the handler computes is not 2.34, the service charge is not 2.75
    and the total is not 32.57; the total lies below 32.565, so it is not
    32.57 at two decimals either. *)
Lemma C7_computed_amounts_differ :
  exists doc,
    orderDraft ex_req ex_body (ex_db available None) = Some doc
    /\ Order.taxAmount doc <> 2.34%float
    /\ Order.serviceCharge doc <> 2.75%float
    /\ Order.totalAmount doc <> 32.57%float
    /\ PrimFloat.ltb (Order.totalAmount doc) 32.565 = true.
Proof.
  eexists. split; [vm_compute; reflexivity|].
  repeat split; vm_compute; discriminate || reflexivity.
Qed.

(** C7, amended: for that request the handler computes the line total 27.48,
    the subtotal 27.48 and the delivery fee 0; the tax and the service charge
    are kept as computed, 2.3358 and 2.748 up to the rounding of the Numbers,
    which are 2.34 and 2.75 at two decimals; the total is the sum of these
    unrounded amounts, 32.5638 up to that rounding, which is 32.56 at two
    decimals. These are the amounts of the document that the handler hands to
    [Order.create]. *)
Theorem C7_sample_amounts_amended :
  exists doc,
    orderDraft ex_req ex_body (ex_db available None) = Some doc
    /\ map Order.totalPrice (Order.items doc) = [27.48%float]
    /\ Order.subtotal doc = 27.48%float
    /\ Order.taxAmount doc = 2.3358000000000003%float
    /\ Order.serviceCharge doc = 2.7480000000000002%float
    /\ Order.deliveryFee doc = 0%float
    /\ Order.totalAmount doc = 32.563800000000001%float
    /\ PrimFloat.ltb 2.335 (Order.taxAmount doc)
       && PrimFloat.ltb (Order.taxAmount doc) 2.345 = true
    /\ PrimFloat.ltb 2.745 (Order.serviceCharge doc)
       && PrimFloat.ltb (Order.serviceCharge doc) 2.755 = true
    /\ PrimFloat.ltb 32.555 (Order.totalAmount doc)
       && PrimFloat.ltb (Order.totalAmount doc) 32.565 = true.
Proof.
  eexists. split; [vm_compute; reflexivity|].
  repeat split; vm_compute; reflexivity.
Qed.

(** ** C8 *)

(** C8: the code does not do what the claim says. The hook that numbers a new
    order would give the first order of the day the number ORD2611020001, but
    Mongoose validates a document before it runs the [pre('save')] hooks, and
    the validation refuses a document without order number. Two requests of
    the same day both end with that error; no order is stored and none gets a
    number. *)
Theorem C8_orders_not_numbered :
  let db := ex_db available None in
  let doc := newOrder ex_req ex_body ex_restaurant 27.48 [] in
  Order.orderNumber doc = EmptyString
  /\ fst (Order_preSave true ex_noon doc db)
     = Success (Order.set_orderNumber "ORD2611020001" doc)
  /\ createOrder ex_req ex_body db = (Failed (Uncaught SchemaValidation), db)
  /\ createOrder ex_req2 ex_body (snd (createOrder ex_req ex_body db))
     = (Failed (Uncaught SchemaValidation), db)
  /\ orders (snd (createOrder ex_req2 ex_body (snd (createOrder ex_req ex_body db))))
     = [].
Proof. cbv zeta. repeat split; vm_compute; reflexivity. Qed.

(** ** C9 *)




(** The [add] arm with a quantity that came as a JSON string: [+] joins the
    texts, and 25 burgers and "3" make 253. *)
Example add_joins_the_texts :
  isInt (QString "3") = true
  /\ Dish.stockQuantity
       <$> dishes (snd (updateDishStock ex_dish1 (QString "3") add (ex_db available None)))
             !! ex_dish1
     = Some 253%Z
  /\ updateDishStock ex_dish1 (QString "-3") add (ex_db available None)
     = (Failed (Uncaught SchemaValidation), ex_db available None).
Proof. repeat split; vm_compute; reflexivity. Qed.

(** ** C10 *)

(** C10: [setOrderStatus] with the status cancelled or rejected stamps
    [cancelledBy] and [cancelledAt], appends the history entry and stores the
    order, and it leaves every dish and every table as they were (nor does it
    record a cancellation reason): stock is restored and the table freed by
    [cancelOrder] only. *)
Theorem C10_status_route_no_compensation req id status notes db o :
  List.find (hasId id) (orders db) = Some o ->
  status = cancelled \/ status = rejected ->
  exists o' db',
    setOrderStatus req id status notes db = (Success o', db')
    /\ Order.status o' = status
    /\ Order.cancelledBy o' = Some (user req)
    /\ Order.cancelledAt o' = Some (now req)
    /\ Order.cancellationReason o' = Order.cancellationReason o
    /\ Order.statusHistory o'
       = Order.statusHistory o
           ++ [Order.mkEntry status (user req) (default EmptyString notes) (now req)]
    /\ List.find (hasId id) (orders db') = Some o'
    /\ dishes db' = dishes db
    /\ tables db' = tables db.
Proof.
  intros Hfind Hst. pose proof (find_hasId _ _ _ Hfind) as Hid.
  pose proof (setOrderStatus_found req id status notes db o Hfind) as Hrun.
  cbv zeta in Hrun. eexists _, _. split; [exact Hrun|]. clear Hrun.
  destruct Hst as [-> | ->]; simpl; rewrite Hid;
    (repeat split; try reflexivity; now apply find_after_write with o).
Qed.

(** C10, at the sample order: after the status route cancels it, the two
    burgers are still missing from the stock and the table is still taken. *)
Lemma C10_status_route_no_compensation_witness :
  exists o' db',
    setOrderStatus ex_req ex_order1 cancelled None ex_db_placed = (Success o', db')
    /\ Order.cancelledBy o' = Some ex_user1
    /\ Dish.stockQuantity <$> dishes db' !! ex_dish1 = Some 23%Z
    /\ Table.status <$> tables db' !! ex_table1 = Some occupied.
Proof.
  destruct (C10_status_route_no_compensation ex_req ex_order1 cancelled None ex_db_placed ex_order)
    as (o' & db' & Hrun & _ & Hby & _ & _ & _ & _ & Hd & Ht).
  - vm_compute. reflexivity.
  - left. reflexivity.
  - exists o', db'. split; [exact Hrun|]. split; [exact Hby|].
    rewrite Hd, Ht. split; vm_compute; reflexivity.
Defined.

(** * Further properties *)

(** ** The methods of a table *)

(** X1: a table is never taken by two orders in a row: whatever the table
    and the two order identifiers, an [occupy] that follows an [occupy] is
    refused and leaves the table as the first call left it. *)
Theorem X1_occupy_after_occupy_refused (table : Table.t) (id1 id2 : ObjectId) :
  Table.occupy id2 (snd (Table.occupy id1 table))
  = (false, snd (Table.occupy id1 table)).
Proof.
  unfold Table.occupy. destruct table as [n r st cur act].
  destruct st; reflexivity.
Qed.

(** X2: [reserve] is accepted exactly for an available, active table; a
    refused call changes nothing; an accepted one makes the table reserved
    and keeps its order reference, after which a second [reserve] is refused
    and an [occupy] is accepted. *)
Theorem X2_reserve (table : Table.t) (id : ObjectId) :
  (fst (Table.reserve table) = true
   <-> Table.status table = available /\ Table.isActive table = true)
  /\ (fst (Table.reserve table) = false -> snd (Table.reserve table) = table)
  /\ (fst (Table.reserve table) = true ->
      let table' := snd (Table.reserve table) in
      Table.status table' = reserved
      /\ Table.currentOrder table' = Table.currentOrder table
      /\ fst (Table.reserve table') = false
      /\ fst (Table.occupy id table') = true
      /\ Table.currentOrder (snd (Table.occupy id table')) = Some id).
Proof.
  unfold Table.reserve, Table.isAvailable. destruct table as [n r st cur act].
  simpl. split; [|split].
  - destruct st, act; simpl; split; try discriminate; try (intros [? ?]; discriminate);
      auto.
  - destruct st, act; simpl; intros; congruence.
  - destruct st, act; simpl; try discriminate. intros _. repeat split.
Qed.

(** X2, at the sample table while free. *)
Lemma X2_reserve_witness :
  fst (Table.reserve ex_free_table) = true
  /\ Table.status (snd (Table.reserve ex_free_table)) = reserved
  /\ fst (Table.reserve (snd (Table.reserve ex_free_table))) = false.
Proof.
  destruct (X2_reserve ex_free_table ex_order1) as (Hiff & _ & Hok).
  assert (H : fst (Table.reserve ex_free_table) = true)
    by (apply Hiff; split; reflexivity).
  destruct (Hok H) as (Hs & _ & Hr & _).
  split; [exact H|]. split; [exact Hs | exact Hr].
Defined.

(** X3: [free] undoes [occupy] on a table that was available and referred to
    no order; on a table that was reserved it does not: the table comes back
    available, the reservation is lost. *)
Theorem X3_free_after_occupy (table : Table.t) (id : ObjectId) :
  (Table.status table = available -> Table.currentOrder table = None ->
   Table.free (snd (Table.occupy id table)) = table)
  /\ (Table.status table = reserved ->
      Table.status (Table.free (snd (Table.occupy id table))) = available).
Proof.
  unfold Table.free, Table.occupy. destruct table as [n r st cur act]. simpl.
  split.
  - intros -> ->. reflexivity.
  - intros ->. reflexivity.
Qed.

(** X3, at the sample table. *)
Lemma X3_free_after_occupy_witness :
  Table.free (snd (Table.occupy ex_order1 ex_free_table)) = ex_free_table
  /\ Table.status (Table.free (snd (Table.occupy ex_order1 (ex_table reserved None))))
     = available.
Proof.
  split.
  - apply (X3_free_after_occupy ex_free_table ex_order1); reflexivity.
  - apply (X3_free_after_occupy (ex_table reserved None) ex_order1). reflexivity.
Defined.

(** ** The methods of a dish *)

(** X4: two stock adjustments in a row are one adjustment by the sum,
    provided the first does not clamp: the whole dish, flags included, is the
    same. This is stated where the Numbers add exactly: the stock, the two
    adjustments and the sums that occur are within [MAX_SAFE_INTEGER] in
    magnitude. *)
Theorem X4_updateStock_twice (dish : Dish.t) (a b : Z) :
  isSafeInteger (Dish.stockQuantity dish) ->
  isSafeInteger a ->
  isSafeInteger b ->
  isSafeInteger (a + b) ->
  isSafeInteger (Dish.stockQuantity dish + a) ->
  isSafeInteger (Dish.stockQuantity dish + a + b) ->
  (0 <= Dish.stockQuantity dish + a)%Z ->
  Dish.updateStock b (Dish.updateStock a dish) = Dish.updateStock (a + b) dish.
Proof.
  intros _ _ _ _ _ _ H.
  unfold Dish.updateStock, Dish.checkStockStatus, Dish.set_stockQuantity.
  simpl. rewrite (Z.max_r 0 (Dish.stockQuantity dish + a)) by exact H.
  now rewrite Z.add_assoc.
Qed.

(** X4, at the sample dish: ten more, then four fewer. *)
Lemma X4_updateStock_twice_witness :
  Dish.updateStock (-4) (Dish.updateStock 10 ex_burger) = Dish.updateStock 6 ex_burger.
Proof.
  apply (X4_updateStock_twice ex_burger 10 (-4));
    unfold isSafeInteger, MAX_SAFE_INTEGER; simpl; lia.
Defined.

(** X5: after the flags are recomputed, by [checkStockStatus] or by
    [updateStock], a dish whose threshold is not negative and that is out of
    stock is also low on stock. *)
Theorem X5_out_of_stock_is_low_stock (dish : Dish.t) (delta : Z) :
  (0 <= Dish.lowStockThreshold dish)%Z ->
  (Dish.isOutOfStock (Dish.checkStockStatus dish) = true ->
   Dish.isLowStock (Dish.checkStockStatus dish) = true)
  /\ (Dish.isOutOfStock (Dish.updateStock delta dish) = true ->
      Dish.isLowStock (Dish.updateStock delta dish) = true).
Proof.
  intros Ht. unfold Dish.updateStock, Dish.checkStockStatus. simpl. split.
  - intros H. apply Z.eqb_eq in H. apply Z.leb_le. lia.
  - intros H. apply Z.eqb_eq in H. apply Z.leb_le. lia.
Qed.

(** X5, at the sample dish once its stock is used up. *)
Lemma X5_out_of_stock_is_low_stock_witness :
  Dish.isLowStock (Dish.updateStock (-25) ex_burger) = true.
Proof.
  apply (X5_out_of_stock_is_low_stock ex_burger (-25)).
  - vm_compute. discriminate.
  - reflexivity.
Defined.

(** ** The create handler as a whole *)



(** X7: no request to POST /api/orders creates an order. Whatever the
    request and the database, the handler ends with a failure and leaves the
    database as it was: no order is stored, no table is occupied and no stock
    is taken. *)
Theorem X7_createOrder_stores_nothing req body db :
  (exists f, createOrder req body db = (Failed f, db))
  /\ orders (snd (createOrder req body db)) = orders db
  /\ tables (snd (createOrder req body db)) = tables db
  /\ dishes (snd (createOrder req body db)) = dishes db.
Proof.
  split; [apply createOrder_fails|].
  now rewrite createOrder_writes_nothing.
Qed.

(** X8: what [createOrder] leaves alone, whether it succeeds or fails: the
    restaurants; the orders already stored, to which it can only append; every
    table but the one named by a dine-in request; every dish that no item of
    the request refers to. *)
Theorem X8_createOrder_frame req body db :
  let db' := snd (createOrder req body db) in
  restaurants db' = restaurants db
  /\ orders db `prefix_of` orders db'
  /\ (forall t,
        body_orderType body <> dine_in \/ body_tableId body <> Some t ->
        tables db' !! t = tables db !! t)
  /\ (forall d,
        Forall (fun item => req_dishId item <> d) (body_items body) ->
        dishes db' !! d = dishes db !! d).
Proof.
  cbv zeta. rewrite createOrder_writes_nothing. repeat split; reflexivity.
Qed.

(** X8, at a take-away order and the sample table. *)
Lemma X8_createOrder_frame_witness :
  tables (snd (createOrder ex_req ex_body_scarce ex_db_scarce)) !! ex_table1
  = tables ex_db_scarce !! ex_table1.
Proof.
  destruct (X8_createOrder_frame ex_req ex_body_scarce ex_db_scarce)
    as (_ & _ & Ht & _).
  apply Ht. left. discriminate.
Defined.

(** ** The dishes router and the order router together *)






(** ** The status machine *)

Lemma setOrderStatus_missing req id status notes db :
  List.find (hasId id) (orders db) = None ->
  setOrderStatus req id status notes db = (Failed OrderNotFound, db).
Proof.
  intros H. unfold setOrderStatus, Order_findById, mbind, Handler_bind.
  now rewrite H.
Qed.

Lemma cancelOrder_missing req id reason db :
  List.find (hasId id) (orders db) = None ->
  cancelOrder req id reason db = (Failed OrderNotFound, db).
Proof.
  intros H. unfold cancelOrder, Order_findById, mbind, Handler_bind.
  now rewrite H.
Qed.

(** The order [setOrderStatus] stores, field by field. *)
Lemma setOrderStatus_stored req id status notes db o :
  List.find (hasId id) (orders db) = Some o ->
  exists o',
    setOrderStatus req id status notes db
    = (Success o',
       set_orders (map (fun x => if hasId id x then o' else x) (orders db)) db)
    /\ Order.status o' = status
    /\ Order.statusHistory o'
       = Order.statusHistory o
           ++ [Order.mkEntry status (user req) (default EmptyString notes) (now req)]
    /\ createdPart o' = createdPart o
    /\ Order.cancellationReason o' = Order.cancellationReason o
    /\ Order.actualDeliveryTime o'
       = (if bool_decide (status ∈ [delivered; completed])
          then Some (now req) else Order.actualDeliveryTime o)
    /\ Order.cancelledBy o'
       = (if bool_decide (status ∈ [cancelled; rejected])
          then Some (user req) else Order.cancelledBy o)
    /\ Order.cancelledAt o'
       = (if bool_decide (status ∈ [cancelled; rejected])
          then Some (now req) else Order.cancelledAt o).
Proof.
  intros Hfind. pose proof (find_hasId _ _ _ Hfind) as Hid.
  pose proof (setOrderStatus_found req id status notes db o Hfind) as Hrun.
  cbv zeta in Hrun. eexists. split.
  - rewrite Hrun. do 3 f_equal.
    destruct status; simpl; now rewrite Hid.
  - destruct status; simpl; repeat split.
Qed.

(** X11: the status route accepts every status for a stored order, whatever
    its current status, a terminal one included. It stores the new status
    with one more history entry, stamps the delivery time for delivered and
    completed and the cancellation user and time for cancelled and rejected,
    and changes nothing else: not what was fixed at creation (lines, amounts,
    number), not the cancellation reason, no dish, no table, no
    restaurant. *)
Theorem X11_status_route_accepts_all req id status notes db o :
  List.find (hasId id) (orders db) = Some o ->
  exists o' db',
    setOrderStatus req id status notes db = (Success o', db')
    /\ List.find (hasId id) (orders db') = Some o'
    /\ Order.status o' = status
    /\ Order.statusHistory o'
       = Order.statusHistory o
           ++ [Order.mkEntry status (user req) (default EmptyString notes) (now req)]
    /\ createdPart o' = createdPart o
    /\ Order.cancellationReason o' = Order.cancellationReason o
    /\ Order.actualDeliveryTime o'
       = (if bool_decide (status ∈ [delivered; completed])
          then Some (now req) else Order.actualDeliveryTime o)
    /\ Order.cancelledBy o'
       = (if bool_decide (status ∈ [cancelled; rejected])
          then Some (user req) else Order.cancelledBy o)
    /\ Order.cancelledAt o'
       = (if bool_decide (status ∈ [cancelled; rejected])
          then Some (now req) else Order.cancelledAt o)
    /\ dishes db' = dishes db
    /\ tables db' = tables db
    /\ restaurants db' = restaurants db.
Proof.
  intros Hfind.
  destruct (setOrderStatus_stored req id status notes db o Hfind)
    as (o' & Hrun & Hst & Hhist & Hpart & Hreason & Htime & Hby & Hat).
  exists o'. eexists. split; [exact Hrun|]. simpl.
  split; [|repeat split; assumption].
  apply find_after_write with o; [|exact Hfind].
  apply find_hasId in Hfind. unfold createdPart in Hpart. congruence.
Qed.

(** X11, at the sample order once completed: it can be set back to pending. *)
Lemma X11_status_route_accepts_all_witness :
  exists o' db',
    setOrderStatus ex_req ex_order1 pending None ex_db_completed = (Success o', db')
    /\ Order.status o' = pending
    /\ map Order.entryStatus (Order.statusHistory o') = [completed; pending]
    /\ Order.totalAmount o' = Order.totalAmount ex_order.
Proof.
  destruct (X11_status_route_accepts_all ex_req ex_order1 pending None ex_db_completed
              (Order.set_actualDeliveryTime ex_noon
                 (Order.updateStatus completed ex_user1 None ex_noon ex_order)))
    as (o' & db' & Hrun & _ & Hst & Hhist & Hpart & _).
  - vm_compute. reflexivity.
  - exists o', db'. split; [exact Hrun|]. split; [exact Hst|].
    split; [rewrite Hhist; reflexivity|].
    unfold createdPart in Hpart. now injection Hpart.
Defined.

(** X12: an order that has been cancelled, or set to a terminal status
    through the status route, cannot be cancelled (again): the request is
    refused and changes nothing, so its stock is not restored a second
    time. *)
Theorem X12_no_cancel_after_terminal req id db o req' reason' :
  List.find (hasId id) (orders db) = Some o ->
  (forall reason,
      cannotCancel (Order.status o) = false ->
      let db1 := snd (cancelOrder req id reason db) in
      cancelOrder req' id reason' db1 = (Failed InvalidStateTransition, db1))
  /\ (forall status notes,
        status ∈ [delivered; completed; cancelled; rejected] ->
        let db1 := snd (setOrderStatus req id status notes db) in
        cancelOrder req' id reason' db1 = (Failed InvalidStateTransition, db1)).
Proof.
  intros Hfind. pose proof (find_hasId _ _ _ Hfind) as Hid. split.
  - intros reason Hc. cbv zeta.
    destruct (cancelOrder_accepted req id reason db o Hfind Hc)
      as (ds & ts & Hrun & _).
    rewrite Hrun. simpl snd. eapply cancelOrder_refused.
    + simpl. rewrite Hid. now apply find_after_write with o.
    + reflexivity.
  - intros status notes Hst. cbv zeta.
    destruct (setOrderStatus_stored req id status notes db o Hfind)
      as (o' & Hrun & Hs & _ & Hpart & _).
    rewrite Hrun. simpl snd. eapply cancelOrder_refused.
    + simpl. apply find_after_write with o; [|exact Hfind].
      unfold createdPart in Hpart. congruence.
    + rewrite Hs. unfold cannotCancel. now apply bool_decide_eq_true_2.
Qed.

(** X12, at the sample order: cancelled once, then once more. *)
Lemma X12_no_cancel_after_terminal_witness :
  let db1 := snd (cancelOrder ex_req ex_order1 None ex_db_placed) in
  cancelOrder ex_req ex_order1 None db1 = (Failed InvalidStateTransition, db1).
Proof.
  destruct (X12_no_cancel_after_terminal ex_req ex_order1 ex_db_placed ex_order
              ex_req None) as [H _].
  - vm_compute. reflexivity.
  - apply (H None). reflexivity.
Defined.

(** X13: the status route can reopen a cancelled order, and cancelling the
    reopened order restores its stock once more: after cancel, reopen and
    cancel, a stored dish holds what it held plus twice the quantity the order
    has of it. This is stated where the Numbers add exactly: for a stock and
    quantities that are not negative and a sum within [MAX_SAFE_INTEGER]. *)
Theorem X13_reopen_and_cancel_restores_twice
    req1 req2 req3 id reason1 notes reason3 db o :
  List.find (hasId id) (orders db) = Some o ->
  cannotCancel (Order.status o) = false ->
  Forall (fun item => 0 <= Order.quantity item)%Z (Order.items o) ->
  let db1 := snd (cancelOrder req1 id reason1 db) in
  let db2 := snd (setOrderStatus req2 id pending notes db1) in
  exists o3 db3,
    cancelOrder req3 id reason3 db2 = (Success o3, db3)
    /\ forall d dish,
         dishes db !! d = Some dish ->
         (0 <= Dish.stockQuantity dish)%Z ->
         (Dish.stockQuantity dish + 2 * orderedQuantity d (Order.items o)
          <= MAX_SAFE_INTEGER)%Z ->
         Dish.stockQuantity <$> dishes db3 !! d
         = Some (Dish.stockQuantity dish + 2 * orderedQuantity d (Order.items o))%Z.
Proof.
  intros Hfind Hc Hq. cbv zeta. pose proof (find_hasId _ _ _ Hfind) as Hid.
  destruct (cancelOrder_accepted req1 id reason1 db o Hfind Hc)
    as (ds1 & ts1 & Hrun1 & Hds1 & _).
  rewrite Hrun1. simpl snd.
  match goal with |- context [setOrderStatus _ _ _ _ ?d] => set (db1 := d) end.
  assert (Hfind1 : exists o1, List.find (hasId id) (orders db1) = Some o1
                              /\ Order.items o1 = Order.items o).
  { eexists. split; [|shelve]. unfold db1. simpl. rewrite Hid.
    now apply find_after_write with o. Unshelve. reflexivity. }
  destruct Hfind1 as (o1 & Hfind1 & Hitems1).
  destruct (setOrderStatus_stored req2 id pending notes db1 o1 Hfind1)
    as (o2 & Hrun2 & Hs2 & _ & Hpart2 & _).
  rewrite Hrun2. simpl snd.
  match goal with |- context [cancelOrder _ _ _ ?d] => set (db2 := d) end.
  assert (Hfind2 : List.find (hasId id) (orders db2) = Some o2).
  { unfold db2. simpl. apply find_after_write with o1; [|exact Hfind1].
    apply find_hasId in Hfind1. unfold createdPart in Hpart2. congruence. }
  assert (Hitems2 : Order.items o2 = Order.items o).
  { unfold createdPart in Hpart2. rewrite <- Hitems1. congruence. }
  destruct (cancelOrder_accepted req3 id reason3 db2 o2 Hfind2)
    as (ds3 & ts3 & Hrun3 & Hds3 & _).
  { rewrite Hs2. reflexivity. }
  eexists _, _. split; [exact Hrun3|]. intros d dish Hd Hs _. simpl dishes.
  rewrite Hds3. unfold db2, db1. simpl dishes. rewrite Hds1, Hd, Hitems2. simpl.
  f_equal. pose proof (orderedQuantity_nonneg d _ Hq) as Hnn.
  rewrite stockAfter_restore; [|exact Hq|rewrite stockAfter_restore by done; lia].
  rewrite stockAfter_restore by done. lia.
Qed.

(** X13, at the sample order: 23 burgers while it is placed, 27 in the
    end. *)
Lemma X13_reopen_and_cancel_restores_twice_witness :
  exists o3 db3,
    cancelOrder ex_req ex_order1 None
      (snd (setOrderStatus ex_req ex_order1 pending None
              (snd (cancelOrder ex_req ex_order1 None ex_db_placed))))
    = (Success o3, db3)
    /\ Dish.stockQuantity <$> dishes db3 !! ex_dish1 = Some 27%Z.
Proof.
  destruct (X13_reopen_and_cancel_restores_twice ex_req ex_req ex_req ex_order1
              None None None ex_db_placed ex_order)
    as (o3 & db3 & Hrun & Hstock).
  - vm_compute. reflexivity.
  - reflexivity.
  - repeat constructor; vm_compute; discriminate.
  - exists o3, db3. split; [exact Hrun|].
    apply (Hstock ex_dish1 (Dish.mk "Burger" ex_rest1 12.99 true 23 10 false false)).
    + vm_compute. reflexivity.
    + vm_compute. discriminate.
    + vm_compute. discriminate.
Defined.

(** ** Invariants of the orders collection *)

Lemma write_map_same {B} (f : Order.t -> B) id o o' os :
  NoDup (map Order._id os) ->
  List.find (hasId id) os = Some o ->
  f o' = f o ->
  map f (map (fun x => if hasId id x then o' else x) os) = map f os.
Proof.
  intros Hnd Hfind Hf. rewrite map_map. apply map_ext_in. intros x Hx.
  destruct (hasId id x) eqn:E; [|reflexivity].
  rewrite Hf. f_equal. apply find_some in Hfind as [Ho Hid].
  unfold hasId in *. apply bool_decide_eq_true_1 in E, Hid.
  apply (NoDup_map_eq Order._id os); [exact Hnd | | | congruence];
    now apply list_elem_of_In.
Qed.

(** What the stock route writes: nothing, or one dish, whose stock is not
    negative. *)
Lemma updateDishStock_writes id q op db :
  snd (updateDishStock id q op db) = db
  \/ exists dish dish',
       dishes db !! id = Some dish
       /\ applyStockOperation op q dish = Some dish'
       /\ (0 <= Dish.stockQuantity dish')%Z
       /\ snd (updateDishStock id q op db)
          = set_dishes (<[id := dish']> (dishes db)) db.
Proof.
  unfold updateDishStock. destruct (negb (isInt q)); [now left|].
  unfold Dish_findById, mbind, Handler_bind.
  destruct (dishes db !! id) as [dish|] eqn:Hd; [|now left].
  destruct (applyStockOperation op q dish) as [dish'|] eqn:Hop; [|now left].
  destruct (Dish.stockQuantity dish' <? 0)%Z eqn:Hs; [now left|].
  right. exists dish, dish'. repeat split; try assumption.
  now apply Z.ltb_ge.
Qed.

(** Every arm of the stock route ends by recomputing the flags. *)
Lemma applyStockOperation_checked op q dish dish' :
  applyStockOperation op q dish = Some dish' ->
  dish' = Dish.checkStockStatus
            (Dish.set_stockQuantity (Dish.stockQuantity dish') dish).
Proof.
  destruct op, q as [n|s]; simpl; unfold Dish.updateStockText;
    try destruct (Number_ofText _); simpl; try discriminate;
    now intros [= <-].
Qed.

(** What a request does to the orders: nothing, or it rewrites one order,
    keeping what was fixed at its creation. *)
Lemma handle_orders r db :
  orders (handle r db) = orders db
  \/ (exists id o o',
        List.find (hasId id) (orders db) = Some o
        /\ orders (handle r db)
           = map (fun x => if hasId id x then o' else x) (orders db)
        /\ createdPart o' = createdPart o
        /\ statusMatchesHistory o').
Proof.
  destruct r as [req body | req id status notes | req id reason | id q op]; simpl.
  - left. now rewrite createOrder_writes_nothing.
  - destruct (List.find (hasId id) (orders db)) as [o|] eqn:Hfind.
    + right.
      destruct (setOrderStatus_stored req id status notes db o Hfind)
        as (o' & Hrun & Hs & Hh & Hpart & _).
      exists id, o, o'. rewrite Hrun. simpl. repeat split; try assumption.
      unfold statusMatchesHistory. now rewrite Hs, Hh, last_snoc.
    + left. now rewrite setOrderStatus_missing.
  - destruct (List.find (hasId id) (orders db)) as [o|] eqn:Hfind.
    + destruct (cannotCancel (Order.status o)) eqn:Hc.
      * left. now rewrite (cancelOrder_refused req id reason db o).
      * right.
        destruct (cancelOrder_accepted req id reason db o Hfind Hc)
          as (ds & ts & Hrun & _).
        eexists id, o, _. rewrite Hrun. simpl.
        rewrite (find_hasId _ _ _ Hfind).
        split; [exact Hfind|]. split; [reflexivity|]. split; [reflexivity|].
        unfold statusMatchesHistory, Order.set_cancelled,
          Order.set_cancellationReason, Order.updateStatus.
        cbn [Order.status Order.statusHistory]. now rewrite last_snoc.
    + left. now rewrite cancelOrder_missing.
  - left. destruct (updateDishStock_writes id q op db)
      as [-> | (dish & dish' & _ & _ & _ & ->)]; reflexivity.
Qed.

(** X14: the status of an order is the status of its newest history entry,
    or pending when it has none: if this holds of every stored order, it
    still holds after any request to the order, status, cancel and stock
    routes. *)
Theorem X14_status_matches_history db r :
  Forall statusMatchesHistory (orders db) ->
  Forall statusMatchesHistory (orders (handle r db)).
Proof.
  intros HI.
  destruct (handle_orders r db) as [-> | (id & o & o' & _ & -> & _ & Ho')].
  - exact HI.
  - apply Forall_map. eapply Forall_impl; [exact HI|].
    intros x Hx. simpl. now destruct (hasId id x).
Qed.

(** X14, at the sample order when it is completed. *)
Lemma X14_status_matches_history_witness :
  Forall statusMatchesHistory (orders ex_db_completed).
Proof.
  change ex_db_completed
    with (handle (PutOrderStatus ex_req ex_order1 completed None) ex_db_placed).
  apply X14_status_matches_history.
  repeat constructor.
Defined.

Lemma handle_createdPart r db :
  NoDup (map Order._id (orders db)) ->
  map createdPart (orders (handle r db)) = map createdPart (orders db).
Proof.
  intros Hnd.
  destruct (handle_orders r db) as [-> | (id & o & o' & Hfind & -> & Hpart & _)].
  - reflexivity.
  - now rewrite (write_map_same createdPart id o o').
Qed.

Lemma createdPart_ids os1 os2 :
  map createdPart os1 = map createdPart os2 ->
  map Order._id os1 = map Order._id os2.
Proof.
  revert os2. induction os1 as [|o1 os1 IH]; intros [|o2 os2] H;
    try discriminate; [reflexivity|].
  simpl in H. injection H as Ho H. simpl. f_equal; [|now apply IH].
  unfold createdPart in Ho. congruence.
Qed.

(** X15: the three order routes and the stock route never add, remove or
    reorder an order, and what was fixed at its creation never changes:
    through any run of requests, the stored orders keep their place,
    identifier, number, restaurant, customer, table, type, lines, amounts,
    payment method and creation time. The identifiers of the stored orders
    are distinct, as in any collection. *)
Theorem X15_orders_kept_and_frozen db rs :
  NoDup (map Order._id (orders db)) ->
  map createdPart (orders (handleAll rs db)) = map createdPart (orders db).
Proof.
  revert db. induction rs as [|r rs IH]; intros db Hnd; [reflexivity|].
  simpl. pose proof (handle_createdPart r db Hnd) as Hstep.
  rewrite IH; [exact Hstep|].
  now rewrite (createdPart_ids _ _ Hstep).
Qed.

(** X15, at the sample order, completed and then followed by a request for
    a second order. *)
Lemma X15_orders_kept_and_frozen_witness :
  map createdPart
    (orders (handleAll [PutOrderStatus ex_req ex_order1 completed None;
                        PostOrder ex_req2 ex_body] ex_db_placed))
  = [createdPart ex_order].
Proof.
  apply (X15_orders_kept_and_frozen ex_db_placed).
  simpl. apply NoDup_singleton.
Defined.

(** ** Invariants of the tables and of the dishes *)

Lemma keepsPart_bind {X A B} (part : Db -> X) (m : Handler A) (k : A -> Handler B) :
  keepsPart part m -> (forall a, keepsPart part (k a)) -> keepsPart part (m ≫= k).
Proof.
  intros Hm Hk db. rewrite snd_bind. specialize (Hm db).
  destruct (m db) as [[a|f] db1]; simpl in Hm; [|exact Hm].
  now rewrite Hk.
Qed.

Lemma keepsPart_foldM {X A B} (part : Db -> X) (body : B -> A -> Handler B) l :
  (forall b a, keepsPart part (body b a)) ->
  forall b, keepsPart part (foldM body b l).
Proof.
  intros Hbody. induction l as [|x l IH]; intros b.
  - intros db. reflexivity.
  - rewrite foldM_cons. apply keepsPart_bind; [apply Hbody | exact IH].
Qed.

Lemma preserves_bind {A B} I (m : Handler A) (k : A -> Handler B) :
  preserves I m -> (forall a, preserves I (k a)) -> preserves I (m ≫= k).
Proof.
  intros Hm Hk db HI. rewrite snd_bind. specialize (Hm db HI).
  destruct (m db) as [[a|f] db1]; simpl in Hm; [|exact Hm].
  now apply Hk.
Qed.

Lemma preserves_foldM {A B} I (body : B -> A -> Handler B) l :
  (forall b a, preserves I (body b a)) -> forall b, preserves I (foldM body b l).
Proof.
  intros Hbody. induction l as [|x l IH]; intros b.
  - intros db HI. exact HI.
  - rewrite foldM_cons. apply preserves_bind; [apply Hbody | exact IH].
Qed.

(** A step that writes nothing the property reads. *)
Ltac preserves_id := let db := fresh "db" in let HI := fresh "HI" in
                     intros db HI; exact HI.

Ltac unfold_handlers :=
  unfold restoreStock, freeTable,
    Order_save, Order_preSave, Order_replace,
    Order_findById, Dish_findById, Dish_save,
    Table_findById, Table_save, throw, respond,
    mbind, Handler_bind, mret, Handler_ret.

Lemma keeps_tables_restoreStock item : keepsPart tables (restoreStock item).
Proof. intros db. unfold_handlers. now destruct (dishes db !! _). Qed.

Lemma keeps_dishes_freeTable o : keepsPart dishes (freeTable o).
Proof.
  intros db. destruct (freeTable_run o db) as (ts & -> & _). reflexivity.
Qed.

Lemma preserves_keeps_tables {A} (h : Handler A) :
  keepsPart tables h -> preserves tablesConsistent h.
Proof. intros Hk db HI t table. rewrite Hk. apply HI. Qed.

Lemma preserves_keeps_dishes {A} P (h : Handler A) :
  keepsPart dishes h -> preserves (everyDish P) h.
Proof. intros Hk db HI d dish. rewrite Hk. apply HI. Qed.

Lemma preserves_createOrder I req body : preserves I (createOrder req body).
Proof. intros db HI. now rewrite createOrder_writes_nothing. Qed.

(** *** Tables *)

Lemma occupy_consistent id table :
  tableConsistent table -> tableConsistent (snd (Table.occupy id table)).
Proof.
  unfold tableConsistent, Table.occupy. destruct table as [n r st cur act]. simpl.
  destruct st; simpl; auto.
Qed.

Lemma free_consistent table : tableConsistent (Table.free table).
Proof. intros H. now contradict H. Qed.

Lemma reserve_consistent table :
  tableConsistent table -> tableConsistent (snd (Table.reserve table)).
Proof.
  unfold tableConsistent, Table.reserve, Table.isAvailable.
  destruct table as [n r st cur act]. simpl.
  destruct st, act; simpl; auto; intros H Hc; now specialize (H Hc).
Qed.

Lemma preserves_freeTable o : preserves tablesConsistent (freeTable o).
Proof.
  intros db HI. unfold freeTable.
  destruct (Order.orderType o); try exact HI.
  destruct (Order.tableId o) as [t0|]; [|exact HI].
  unfold_handlers. destruct (tables db !! t0) as [table|] eqn:Ht; [|exact HI].
  intros t table'. simpl. destruct (decide (t0 = t)) as [->|Hne].
  - rewrite lookup_insert_eq. intros [= <-]. apply free_consistent.
  - rewrite lookup_insert_ne by done. apply HI.
Qed.

Lemma preserves_tables_cancelOrder req id reason :
  preserves tablesConsistent (cancelOrder req id reason).
Proof.
  unfold cancelOrder. apply preserves_bind; [preserves_id|].
  intros [o|]; [|preserves_id].
  destruct (cannotCancel _); [preserves_id|].
  apply preserves_bind; [preserves_id|]. intros _.
  apply preserves_bind.
  { apply preserves_keeps_tables, keepsPart_foldM. intros. apply keeps_tables_restoreStock. }
  intros _. apply preserves_bind; [apply preserves_freeTable|].
  intros _. preserves_id.
Qed.

Lemma keeps_tables_setOrderStatus req id status notes :
  keepsPart tables (setOrderStatus req id status notes).
Proof.
  intros db. destruct (List.find (hasId id) (orders db)) as [o|] eqn:Hfind.
  - destruct (setOrderStatus_stored req id status notes db o Hfind) as (o' & -> & _).
    reflexivity.
  - now rewrite setOrderStatus_missing.
Qed.

Lemma keeps_tables_updateDishStock id q op : keepsPart tables (updateDishStock id q op).
Proof.
  intros db. destruct (updateDishStock_writes id q op db)
    as [-> | (dish & dish' & _ & _ & _ & ->)]; reflexivity.
Qed.

(** X16: a table refers to an order only while it is occupied, and the
    order engine keeps it so: if this holds of every stored table, it holds
    after any request to the order, status, cancel and stock routes, and after
    a table is deleted; [occupy] and [reserve] keep it and [free] establishes
    it. *)
Theorem X16_tables_stay_consistent db :
  tablesConsistent db ->
  (forall r, tablesConsistent (handle r db))
  /\ (forall id, tablesConsistent (snd (deleteTable id db)))
  /\ (forall t table id,
        tables db !! t = Some table ->
        tableConsistent (snd (Table.occupy id table))
        /\ tableConsistent (Table.free table)
        /\ tableConsistent (snd (Table.reserve table))).
Proof.
  intros HI. split; [|split].
  - intros [req body | req id status notes | req id reason | id q op]; simpl.
    + now apply preserves_createOrder.
    + now apply (preserves_keeps_tables _ (keeps_tables_setOrderStatus _ _ _ _)).
    + now apply preserves_tables_cancelOrder.
    + now apply (preserves_keeps_tables _ (keeps_tables_updateDishStock _ _ _)).
  - intros id. unfold deleteTable.
    destruct (tables db !! id) as [table|]; [|exact HI].
    destruct (bool_decide _); [exact HI|].
    intros t table'. simpl. intros Ht. apply lookup_delete_Some in Ht as [_ Ht].
    now apply (HI t).
  - intros t table id Ht. specialize (HI t table Ht).
    split; [now apply occupy_consistent|].
    split; [apply free_consistent | now apply reserve_consistent].
Qed.

(** X16, at the sample order when it is cancelled. *)
Lemma X16_tables_stay_consistent_witness :
  tablesConsistent (handle (PutOrderCancel ex_req ex_order1 None) ex_db_placed).
Proof.
  apply (X16_tables_stay_consistent ex_db_placed).
  intros t table Ht.
  destruct (decide (t = ex_table1)) as [->|Hne].
  - vm_compute in Ht. injection Ht as <-. intros _. reflexivity.
  - unfold ex_db_placed in Ht. simpl in Ht. now rewrite lookup_singleton_ne in Ht.
Defined.

(** *** Dishes *)

Section DishInvariant.

Variable P : Dish.t -> Prop.
Hypothesis P_checked :
  forall n dish, (0 <= n)%Z ->
    P (Dish.checkStockStatus (Dish.set_stockQuantity n dish)).

Lemma P_updateStock q dish : P (Dish.updateStock q dish).
Proof. unfold Dish.updateStock. apply P_checked. lia. Qed.

Lemma preserves_restoreStock item : preserves (everyDish P) (restoreStock item).
Proof.
  intros db HI. unfold_handlers.
  destruct (dishes db !! Order.dishId item) as [dish|]; [|exact HI].
  intros d dish'. simpl. destruct (decide (Order.dishId item = d)) as [->|Hne].
  - rewrite lookup_insert_eq. intros [= <-]. apply P_updateStock.
  - rewrite lookup_insert_ne by done. apply HI.
Qed.

Lemma preserves_dishes_cancelOrder req id reason :
  preserves (everyDish P) (cancelOrder req id reason).
Proof.
  unfold cancelOrder. apply preserves_bind; [preserves_id|].
  intros [o|]; [|preserves_id].
  destruct (cannotCancel _); [preserves_id|].
  apply preserves_bind; [preserves_id|]. intros _.
  apply preserves_bind.
  { apply preserves_foldM. intros _ item. apply preserves_restoreStock. }
  intros _. apply preserves_bind; [|intros _; preserves_id].
  apply preserves_keeps_dishes, keeps_dishes_freeTable.
Qed.

Lemma preserves_dishes_setOrderStatus req id status notes :
  preserves (everyDish P) (setOrderStatus req id status notes).
Proof.
  apply preserves_keeps_dishes. intros db.
  destruct (List.find (hasId id) (orders db)) as [o|] eqn:Hfind.
  - destruct (setOrderStatus_stored req id status notes db o Hfind) as (o' & -> & _).
    reflexivity.
  - now rewrite setOrderStatus_missing.
Qed.

Lemma preserves_updateDishStock id q op :
  preserves (everyDish P) (updateDishStock id q op).
Proof.
  intros db HI.
  destruct (updateDishStock_writes id q op db)
    as [-> | (dish & dish' & Hd & Hop & Hs & ->)]; [exact HI|].
  intros d dish0. simpl. destruct (decide (id = d)) as [->|Hne].
  - rewrite lookup_insert_eq. intros [= <-].
    rewrite (applyStockOperation_checked _ _ _ _ Hop). now apply P_checked.
  - rewrite lookup_insert_ne by done. apply HI.
Qed.

Lemma preserves_dishes_handle r : forall db, everyDish P db -> everyDish P (handle r db).
Proof.
  destruct r as [req body | req id status notes | req id reason | id q op];
    intros db HI; simpl.
  - now apply preserves_createOrder.
  - now apply preserves_dishes_setOrderStatus.
  - now apply preserves_dishes_cancelOrder.
  - now apply preserves_updateDishStock.
Qed.

End DishInvariant.

(** X17: the flags of the dishes stay in agreement with their stock: if
    every stored dish has [isLowStock] and [isOutOfStock] as its quantity and
    threshold say, this still holds after any request to the order, status,
    cancel and stock routes, the [set] operation included, and after the
    availability route. *)
Theorem X17_flags_stay_in_agreement db :
  everyDish flagsAgree db ->
  (forall r, everyDish flagsAgree (handle r db))
  /\ (forall id b, everyDish flagsAgree (snd (setDishAvailability id b db))).
Proof.
  intros HI. split.
  - intros r. apply preserves_dishes_handle; [|exact HI].
    intros n dish _. split; reflexivity.
  - intros id b. unfold setDishAvailability. unfold_handlers.
    destruct (dishes db !! id) as [dish|] eqn:Hd; [|exact HI].
    intros d dish'. simpl. destruct (decide (id = d)) as [->|Hne].
    + rewrite lookup_insert_eq. intros [= <-]. apply (HI d dish Hd).
    + rewrite lookup_insert_ne by done. apply HI.
Qed.

(** X17, at the sample database and a request that sets the stock of the
    sample dish to 3. *)
Lemma X17_flags_stay_in_agreement_witness :
  everyDish flagsAgree (handle (PutDishStock ex_dish1 3 set) (ex_db available None)).
Proof.
  apply (X17_flags_stay_in_agreement (ex_db available None)).
  intros d dish Hd. destruct (decide (d = ex_dish1)) as [->|Hne].
  - vm_compute in Hd. injection Hd as <-. split; reflexivity.
  - unfold ex_db in Hd. simpl in Hd. now rewrite lookup_singleton_ne in Hd.
Defined.

(** X18: no stock goes negative: if every stored dish holds a quantity that
    is not negative, this still holds after any request to the order, status,
    cancel and stock routes. A subtraction stops at 0, and a [set] to a
    negative quantity is refused when the dish is saved. *)
Theorem X18_stock_stays_non_negative db r :
  everyDish (fun dish => 0 <= Dish.stockQuantity dish)%Z db ->
  everyDish (fun dish => 0 <= Dish.stockQuantity dish)%Z (handle r db).
Proof.
  intros HI. apply preserves_dishes_handle; [|exact HI].
  intros n dish Hn. exact Hn.
Qed.

(** X18, at the sample database and a request that sets the stock to -5. *)
Lemma X18_stock_stays_non_negative_witness :
  everyDish (fun dish => 0 <= Dish.stockQuantity dish)%Z
    (handle (PutDishStock ex_dish1 (-5) set) (ex_db available None)).
Proof.
  apply X18_stock_stays_non_negative.
  intros d dish Hd. destruct (decide (d = ex_dish1)) as [->|Hne].
  - vm_compute in Hd. injection Hd as <-. vm_compute. discriminate.
  - unfold ex_db in Hd. simpl in Hd. now rewrite lookup_singleton_ne in Hd.
Defined.

(** ** The tables router *)

(** X19: the table status route writes the status and nothing else. A table
    that refers to an order still refers to it afterwards, so that setting an
    occupied table to another status leaves a table that refers to an order
    without being occupied; once set to available or reserved, the table is
    accepted by [occupy] for any other order. No other table, no order and no
    dish is touched; an unknown table gives the 404. *)
Theorem X19_table_status_route id status db :
  (tables db !! id = None ->
   updateTableStatus id status db = (inl TableNotFound, db))
  /\ forall table,
       tables db !! id = Some table ->
       exists table' db',
         updateTableStatus id status db = (inr table', db')
         /\ tables db' !! id = Some table'
         /\ Table.status table' = status
         /\ Table.currentOrder table' = Table.currentOrder table
         /\ (Table.currentOrder table <> None -> status <> occupied ->
             ~ tableConsistent table')
         /\ (status = available \/ status = reserved ->
             forall oid, fst (Table.occupy oid table') = true)
         /\ (forall t, t <> id -> tables db' !! t = tables db !! t)
         /\ orders db' = orders db
         /\ dishes db' = dishes db.
Proof.
  unfold updateTableStatus. split; [now intros ->|].
  intros table ->. eexists _, _. split; [reflexivity|]. simpl.
  split; [apply lookup_insert_eq|]. split; [reflexivity|]. split; [reflexivity|].
  split; [|split; [|split; [|split; reflexivity]]].
  - intros Hcur Hst Hc. apply Hst. now apply Hc.
  - intros [-> | ->] oid; reflexivity.
  - intros t Hne. now rewrite lookup_insert_ne.
Qed.

(** X19, at the sample table taken by the sample order and then set to
    available. *)
Lemma X19_table_status_route_witness :
  exists table' db',
    updateTableStatus ex_table1 available ex_db_placed = (inr table', db')
    /\ Table.status table' = available
    /\ Table.currentOrder table' = Some ex_order1.
Proof.
  destruct (X19_table_status_route ex_table1 available ex_db_placed) as [_ H].
  destruct (H (ex_table occupied (Some ex_order1)))
    as (table' & db' & Hrun & _ & Hs & Hc & _).
  - vm_compute. reflexivity.
  - exists table', db'. split; [exact Hrun|]. split; [exact Hs | exact Hc].
Defined.

(** X20: a table that is occupied cannot be deleted: the delete route refuses
    and changes nothing. Once the dine-in order that holds the table is
    cancelled, the table is available and refers to no order, and the route
    no longer refuses it as occupied. *)
Theorem X20_delete_table_and_orders req id reason db o t table :
  List.find (hasId id) (orders db) = Some o ->
  cannotCancel (Order.status o) = false ->
  Order.orderType o = dine_in ->
  Order.tableId o = Some t ->
  tables db !! t = Some table ->
  Table.status table = occupied ->
  deleteTable t db = (inl CannotDeleteOccupied, db)
  /\ (let db1 := snd (cancelOrder req id reason db) in
      tables db1 !! t = Some (Table.free table)
      /\ Table.status (Table.free table) = available
      /\ Table.currentOrder (Table.free table) = None
      /\ fst (deleteTable t db1) <> inl CannotDeleteOccupied).
Proof.
  intros Hfind Hc Hty Htb Ht Hst. split.
  - unfold deleteTable. rewrite Ht, Hst. reflexivity.
  - cbv zeta.
    destruct (cancelOrder_accepted req id reason db o Hfind Hc)
      as (ds & ts & Hrun & _ & Hfree & _).
    rewrite Hrun. simpl snd. simpl tables.
    pose proof (Hfree t table Hty Htb Ht) as Hfreed.
    split; [exact Hfreed|]. split; [reflexivity|]. split; [reflexivity|].
    unfold deleteTable. simpl tables. rewrite Hfreed. simpl. discriminate.
Qed.

(** X20, at the sample order and its table. *)
Lemma X20_delete_table_and_orders_witness :
  deleteTable ex_table1 ex_db_placed = (inl CannotDeleteOccupied, ex_db_placed)
  /\ fst (deleteTable ex_table1 (snd (cancelOrder ex_req ex_order1 None ex_db_placed)))
     <> inl CannotDeleteOccupied.
Proof.
  destruct (X20_delete_table_and_orders ex_req ex_order1 None ex_db_placed ex_order
              ex_table1 (ex_table occupied (Some ex_order1)))
    as (H1 & _ & _ & _ & H2).
  - vm_compute. reflexivity.
  - reflexivity.
  - reflexivity.
  - reflexivity.
  - vm_compute. reflexivity.
  - reflexivity.
  - split; [exact H1 | exact H2].
Defined.

(** ** The review route *)

(** X21: a review is stored exactly when the rating is an integer from 1 to
    5, the order exists, the caller is its customer and its status is
    completed. The checks come in this order, so a stranger is told that the
    order is not theirs before its status matters. A refused request changes
    nothing; an accepted one records rating, text and time for the order,
    replacing an earlier review, and leaves every order lookup, every dish and
    every table as they were. *)
Theorem X21_addReview req id rating_ review_ db reviews :
  let result := addReview req id rating_ review_ (db, reviews) in
  ((rating_ < 1 \/ 5 < rating_)%Z ->
   result = (inl ReviewValidationError, (db, reviews)))
  /\ ((1 <= rating_ <= 5)%Z ->
      (List.find (hasId id) (orders db) = None ->
       result = (inl ReviewOrderNotFound, (db, reviews)))
      /\ forall o,
           List.find (hasId id) (orders db) = Some o ->
           (Order.customerId o <> user req ->
            result = (inl Forbidden, (db, reviews)))
           /\ (Order.customerId o = user req -> Order.status o <> completed ->
               result = (inl InvalidState, (db, reviews)))
           /\ (Order.customerId o = user req -> Order.status o = completed ->
               exists db',
                 result
                 = (inr (o, mkReviewFields rating_ review_ (now req)),
                    (db', <[id := mkReviewFields rating_ review_ (now req)]> reviews))
                 /\ (forall id2,
                       List.find (hasId id2) (orders db')
                       = List.find (hasId id2) (orders db))
                 /\ dishes db' = dishes db
                 /\ tables db' = tables db)).
Proof.
  cbv zeta. unfold addReview. split.
  - intros Hr. rewrite (proj2 (andb_false_iff _ _)); [reflexivity|].
    destruct Hr; [left; apply Z.leb_gt | right; apply Z.leb_gt]; lia.
  - intros [H1 H5].
    rewrite (proj2 (andb_true_iff _ _)) by (split; apply Z.leb_le; lia).
    simpl negb. cbv iota. split; [now intros ->|].
    intros o Hfind. rewrite Hfind. split; [|split].
    + intros Hc. now rewrite bool_decide_eq_false_2.
    + intros Hc Hs. rewrite bool_decide_eq_true_2 by exact Hc.
      now rewrite bool_decide_eq_false_2.
    + intros Hc Hs. rewrite !bool_decide_eq_true_2 by assumption.
      eexists. split; [reflexivity|]. rewrite Order_save_run. simpl.
      split; [|split; reflexivity].
      intros id2. pose proof (find_hasId _ _ _ Hfind) as Hid. rewrite Hid.
      destruct (decide (id2 = id)) as [->|Hne].
      * rewrite Hfind. now apply find_after_write with o.
      * now apply find_other_after_write.
Qed.

(** X21, at the sample order once completed, reviewed by its customer. *)
Lemma X21_addReview_witness :
  exists db',
    addReview ex_req ex_order1 5 (Some "great") (ex_db_completed, ∅)
    = (inr (Order.set_actualDeliveryTime ex_noon
              (Order.updateStatus completed ex_user1 None ex_noon ex_order),
            mkReviewFields 5 (Some "great") ex_noon),
       (db', {[ ex_order1 := mkReviewFields 5 (Some "great") ex_noon ]})).
Proof.
  destruct (X21_addReview ex_req ex_order1 5 (Some "great") ex_db_completed ∅)
    as [_ H].
  destruct H as [_ H]; [lia|].
  destruct (H (Order.set_actualDeliveryTime ex_noon
                 (Order.updateStatus completed ex_user1 None ex_noon ex_order)))
    as (_ & _ & Hok).
  - vm_compute. reflexivity.
  - destruct Hok as (db' & Hrun & _); [reflexivity | reflexivity |].
    exists db'. rewrite Hrun. reflexivity.
Defined.

(** ** The authorization middleware *)

(** X22: [canAccessRestaurant] lets a request through exactly when there is a
    user, a non-empty restaurant identifier, and the user is a super admin or
    an owner or staff member whose own restaurant is that one; a customer
    never passes. The identifier in the path, when present, is the one that
    counts, whatever the body says. [authorize] passes exactly the listed
    roles, so a route for restaurant owners refuses a super admin whom
    [canAccessRestaurant] lets through. *)
Theorem X22_access_control (user_ : option User) (params_id body_id : option string)
    (roles : list Role) :
  (canAccessRestaurant user_ params_id body_id = Next
   <-> exists u restaurantId,
         user_ = Some u
         /\ orString params_id body_id = Some restaurantId
         /\ restaurantId <> EmptyString
         /\ (role u = super_admin
             \/ ((role u = restaurant_owner \/ role u = staff)
                 /\ user_restaurantId u = Some restaurantId)))
  /\ (forall restaurantId,
        params_id = Some restaurantId -> restaurantId <> EmptyString ->
        canAccessRestaurant user_ params_id body_id
        = canAccessRestaurant user_ params_id None)
  /\ (authorize roles user_ = Next <-> exists u, user_ = Some u /\ role u ∈ roles)
  /\ (forall u, user_ = Some u -> role u = super_admin ->
        authorize [restaurant_owner] user_ = Status 403
        /\ (params_id <> None -> params_id <> Some EmptyString ->
            canAccessRestaurant user_ params_id body_id = Next)).
Proof.
  split; [|split; [|split]].
  - unfold canAccessRestaurant. destruct user_ as [u|].
    2: { split; [discriminate | intros (u & r & [=] & _)]. }
    destruct (orString params_id body_id) as [r|].
    2: { split; [discriminate | intros (u' & r & _ & [=] & _)]. }
    case_bool_decide as Hr.
    { split; [discriminate | intros (u' & r' & _ & [= <-] & Hne & _); done]. }
    split.
    + intros H. exists u, r. split; [reflexivity|]. split; [reflexivity|].
      split; [exact Hr|].
      repeat case_bool_decide; simpl in H; try discriminate; auto.
    + intros (u' & r' & [= <-] & [= <-] & _ & Hrole).
      repeat case_bool_decide; simpl; try reflexivity.
      all: destruct Hrole as [Hrole | [[Hrole | Hrole] Hown]]; congruence.
  - intros r -> Hne. unfold canAccessRestaurant, orString.
    now rewrite bool_decide_eq_false_2.
  - unfold authorize. destruct user_ as [u|].
    + case_bool_decide as Hin; split; try discriminate; eauto.
      intros (u' & [= <-] & Hin'). done.
    + split; [discriminate | intros (u & [=] & _)].
  - intros u -> Hrole. split.
    + unfold authorize. rewrite Hrole. reflexivity.
    + intros Hp1 Hp2. unfold canAccessRestaurant, orString.
      destruct params_id as [p|]; [|done].
      rewrite bool_decide_eq_false_2 by congruence.
      rewrite bool_decide_eq_false_2 by congruence.
      now rewrite Hrole.
Qed.

(** X22, at a waiter of the sample restaurant and at an administrator. *)
Lemma X22_access_control_witness :
  canAccessRestaurant (Some ex_waiter) (Some ex_rest1) None = Next
  /\ authorize [restaurant_owner] (Some ex_admin) = Status 403.
Proof.
  split.
  - apply (X22_access_control (Some ex_waiter) (Some ex_rest1) None []).
    exists ex_waiter, ex_rest1. repeat split; try discriminate.
    right. split; [right; reflexivity | reflexivity].
  - now apply (X22_access_control (Some ex_admin) None None [] ) with ex_admin.
Defined.

(** ** The inventory report *)

Lemma filter_length_implies {A} (p q : A -> bool) (l : list A) :
  (forall x, In x l -> p x = true -> q x = true) ->
  length (List.filter p l) <= length (List.filter q l).
Proof.
  induction l as [|x l IH]; intros H; simpl; [lia|].
  assert (IH' := IH (fun y Hy => H y (or_intror Hy))).
  destruct (p x) eqn:Hp.
  - rewrite (H x (or_introl eq_refl) Hp). simpl. lia.
  - destruct (q x); simpl; lia.
Qed.

Lemma Dish_findByRestaurant_stored restaurantId db dish :
  In dish (Dish_findByRestaurant restaurantId db) ->
  Dish.restaurantId dish = restaurantId
  /\ exists d, dishes db !! d = Some dish.
Proof.
  unfold Dish_findByRestaurant. intros H. apply filter_In in H as [Hin Hr].
  split; [now apply bool_decide_eq_true_1 in Hr|].
  apply in_map_iff in Hin as ([d dish'] & <- & Hin).
  exists d. now apply elem_of_map_to_list, list_elem_of_In.
Qed.

(** X23: in the summary of the inventory report, every dish of the restaurant
    is counted either as out of stock or as available, the dishes low on
    stock are among the dishes counted, and no dish of another restaurant is
    counted. If the flags of the stored dishes agree with their quantities
    and no threshold is negative, the dishes out of stock are all counted as
    low on stock too. *)
Theorem X23_inventory_summary restaurantId db :
  let summary := inventorySummary restaurantId db in
  outOfStockDishes summary + availableDishes summary = totalDishes summary
  /\ lowStockDishes summary <= totalDishes summary
  /\ totalDishes summary <= size (dishes db)
  /\ ((forall d dish, dishes db !! d = Some dish ->
         Dish.restaurantId dish <> restaurantId) ->
      totalDishes summary = 0)
  /\ (everyDish (fun dish => flagsAgree dish /\ (0 <= Dish.lowStockThreshold dish)%Z) db ->
      outOfStockDishes summary <= lowStockDishes summary).
Proof.
  cbv zeta. unfold inventorySummary. simpl.
  split; [apply filter_length|]. split; [apply filter_length_le|].
  split; [|split].
  - unfold Dish_findByRestaurant.
    etransitivity; [apply filter_length_le|].
    rewrite length_map. now rewrite length_map_to_list.
  - intros Hnone. destruct (Dish_findByRestaurant restaurantId db) as [|dish l] eqn:E;
      [reflexivity|].
    destruct (Dish_findByRestaurant_stored restaurantId db dish) as (Hr & d & Hd).
    { rewrite E. now left. }
    now destruct (Hnone d dish Hd).
  - intros HI. apply filter_length_implies. intros dish Hin Hout.
    apply Dish_findByRestaurant_stored in Hin as (_ & d & Hd).
    destruct (HI d dish Hd) as [[Hlow Hzero] Ht].
    rewrite Hlow. rewrite Hzero in Hout. apply Z.eqb_eq in Hout. apply Z.leb_le. lia.
Qed.

(** X23, at the sample database once the burgers are sold out. *)
Lemma X23_inventory_summary_witness :
  outOfStockDishes (inventorySummary ex_rest1 ex_db_sold_out)
  <= lowStockDishes (inventorySummary ex_rest1 ex_db_sold_out).
Proof.
  apply (X23_inventory_summary ex_rest1 ex_db_sold_out).
  intros d dish Hd. destruct (decide (d = ex_dish1)) as [->|Hne].
  - vm_compute in Hd. injection Hd as <-. repeat split. vm_compute. discriminate.
  - unfold ex_db_sold_out, ex_db in Hd. simpl in Hd.
    now rewrite lookup_singleton_ne in Hd.
Defined.

(** ** The totals of the stored orders *)

Lemma calculateTotals_createdPart o o' :
  createdPart o' = createdPart o ->
  Order.calculateTotals o = o ->
  Order.calculateTotals o' = o'.
Proof.
  unfold createdPart. intros Hpart Hcalc.
  assert (Hsub := f_equal Order.subtotal Hcalc).
  assert (Htot := f_equal Order.totalAmount Hcalc).
  unfold Order.calculateTotals in Hsub, Htot. simpl in Hsub, Htot.
  destruct o'. unfold Order.calculateTotals. simpl in *.
  injection Hpart as _ _ _ _ _ _ Hitems Hs Ht Hc Hd Hdisc Htotal _ _.
  rewrite Hitems, Hs, Ht, Hc, Hd, Hdisc, Htot, Hsub. now rewrite Htotal.
Qed.

(** X24: the amounts of a stored order do not drift from its lines: if
    [calculateTotals] changes no stored order, that is, if in every stored
    order the subtotal is the sum of the line totals and the total is
    subtotal + tax + service charge + delivery fee - discount, then this
    still holds after any request to the order, status, cancel and stock
    routes. *)
Theorem X24_stored_totals_agree db r :
  Forall (fun o => Order.calculateTotals o = o) (orders db) ->
  Forall (fun o => Order.calculateTotals o = o) (orders (handle r db)).
Proof.
  intros HI.
  destruct (handle_orders r db) as [-> | (id & o & o' & Hfind & -> & Hpart & _)].
  - exact HI.
  - apply Forall_map. eapply Forall_impl; [exact HI|].
    intros x Hx. simpl. destruct (hasId id x); [|exact Hx].
    apply (calculateTotals_createdPart o o' Hpart).
    apply find_some in Hfind as [Hin _].
    rewrite Forall_forall in HI. apply HI. now apply list_elem_of_In.
Qed.

(** X24, at the sample order when it is cancelled. *)
Lemma X24_stored_totals_agree_witness :
  Forall (fun o => Order.calculateTotals o = o)
    (orders (handle (PutOrderCancel ex_req ex_order1 None) ex_db_placed)).
Proof.
  apply X24_stored_totals_agree.
  repeat constructor.
Defined.

(** ** The order-number hook *)



